(** * Methods Grill backend: a shallow embedding and its checked properties

    The development follows the layout of the repository:

    - [JS]          the fragments of the JavaScript runtime the handlers rely
                    on (truthiness, [trim], [toLowerCase], [parseInt],
                    [Math.max]/[Math.min], anchored regular expressions);
    - [RateLimiter], [Auth]
                    middlewares/authMiddleware.js;
    - [Resilience]  the timeout/retry helpers ([withTimeout], [withRetry],
                    [dbOperationWithTimeout]);
    - [UserModel], [UserController]
                    models/User.js and controllers/user-controller.js;
    - [MenuModel], [MenuController], [MenuRoute]
                    models/Menu.js, controllers/menu-controller.js and
                    routes/menu-route.js.

    Definitions come first, the lemmas and theorems about them follow. *)

From Stdlib Require Import ZArith QArith Ascii String List Bool Lia.
From Stdlib Require Import Qround Qminmax.
From stdpp Require Import base option list gmap strings sorting.

Open Scope Z_scope.

(* ===================================================================== *)
(** * JavaScript runtime fragments *)
(* ===================================================================== *)

Module JS.

(** Strings are sequences of 8-bit code units; the white space recognised
    by [String.prototype.trim] and [parseInt] is restricted accordingly to
    TAB, LF, VT, FF, CR and SPACE. *)
Definition isWhiteSpace (a : ascii) : bool := Ascii.is_space a.

Fixpoint trimStart (s : string) : string :=
  match s with
  | EmptyString => EmptyString
  | String a s' => if isWhiteSpace a then trimStart s' else s
  end.

Definition trimEnd (s : string) : string :=
  String.rev (trimStart (String.rev s)).

(** [s.trim()] *)
Definition trim (s : string) : string := trimEnd (trimStart s).

Definition lowerChar (a : ascii) : ascii :=
  let n := N_of_ascii a in
  if ((65 <=? n) && (n <=? 90))%N then ascii_of_N (n + 32) else a.

(** [s.toLowerCase()] on the ASCII range. *)
Fixpoint toLowerCase (s : string) : string :=
  match s with
  | EmptyString => EmptyString
  | String a s' => String (lowerChar a) (toLowerCase s')
  end.

(** [arr.includes(x)] for an array of strings. *)
Definition includes (arr : list string) (x : string) : bool :=
  bool_decide (x ∈ arr).

(** [arr.join(sep)] *)
Fixpoint join (sep : string) (arr : list string) : string :=
  match arr with
  | [] => ""
  | [x] => x
  | x :: rest => x +:+ sep +:+ join sep rest
  end.

(** [s.split(sep)] for a one-character separator. *)
Fixpoint splitFrom (sep : ascii) (current : string) (s : string)
  : list string :=
  match s with
  | EmptyString => [String.rev current]
  | String a s' =>
      if bool_decide (a = sep)
      then String.rev current :: splitFrom sep EmptyString s'
      else splitFrom sep (String a current) s'
  end.

Definition split (sep : ascii) (s : string) : list string :=
  splitFrom sep EmptyString s.

(** [s.startsWith(prefix)] and [s.slice(n)] for [n] within the string. *)
Fixpoint startsWith (prefix s : string) : bool :=
  match prefix, s with
  | EmptyString, _ => true
  | String a prefix', String b s' => bool_decide (a = b) && startsWith prefix' s'
  | String _ _, EmptyString => false
  end.

Fixpoint slice (n : nat) (s : string) : string :=
  match n, s with
  | O, _ => s
  | S n', String _ s' => slice n' s'
  | S _, EmptyString => EmptyString
  end.

(** ** Numbers produced by [parseInt]

    [parseInt] yields an integer or [NaN]; the integers are kept exact
    (a double is exact up to 2^53, beyond that JavaScript rounds). *)
Inductive number : Set :=
| NaN : number
| Num : Z -> number.

(** [Math.max(a, b)] and [Math.min(a, b)]: [NaN] is contagious. *)
Definition Math_max (a b : number) : number :=
  match a, b with
  | Num x, Num y => Num (Z.max x y)
  | _, _ => NaN
  end.

Definition Math_min (a b : number) : number :=
  match a, b with
  | Num x, Num y => Num (Z.min x y)
  | _, _ => NaN
  end.

Definition sub (a b : number) : number :=
  match a, b with
  | Num x, Num y => Num (x - y)
  | _, _ => NaN
  end.

Definition mul (a b : number) : number :=
  match a, b with
  | Num x, Num y => Num (x * y)
  | _, _ => NaN
  end.

(** Value of a digit in the given radix (10 or 16). *)
Definition digitValue (radix : Z) (a : ascii) : option Z :=
  let n := Z.of_N (N_of_ascii a) in
  let v :=
    if (48 <=? n) && (n <=? 57) then Some (n - 48)
    else if (97 <=? n) && (n <=? 102) then Some (n - 87)
    else if (65 <=? n) && (n <=? 70) then Some (n - 55)
    else None in
  match v with
  | Some d => if d <? radix then Some d else None
  | None => None
  end.

(** Longest prefix of digits, accumulated left to right; [None] when the
    prefix is empty. *)
Fixpoint parseDigits (radix : Z) (acc : option Z) (s : string) : option Z :=
  match s with
  | EmptyString => acc
  | String a s' =>
      match digitValue radix a with
      | Some d => parseDigits radix (Some (default 0 acc * radix + d)) s'
      | None => acc
      end
  end.

(** [parseInt(s)] with the radix left out: leading white space is
    skipped, one sign is accepted, a [0x]/[0X] prefix selects radix 16,
    and the longest run of digits is read; no digit gives [NaN]. *)
Definition parseInt (s : string) : number :=
  let s1 := trimStart s in
  let '(sign, s2) :=
    match s1 with
    | String "-" r => (-1, r)
    | String "+" r => (1, r)
    | _ => (1, s1)
    end in
  let '(radix, s3) :=
    match s2 with
    | String "0" (String "x" r) => (16, r)
    | String "0" (String "X" r) => (16, r)
    | _ => (10, s2)
    end in
  match parseDigits radix None s3 with
  | Some v => Num (sign * v)
  | None => NaN
  end.

(** ** JSON values of a request body

    Numbers of a JSON document are finite, hence rationals; arrays and
    objects are not inspected by the handlers and stay opaque.  A
    property that is absent ([undefined]) is [None] at type
    [option value]. *)
Inductive value : Set :=
| VNull : value
| VBool : bool -> value
| VNum : Q -> value
| VStr : string -> value
| VObject : value.

(** ToBoolean, as used by [!x], [x || y] and [if (x)]. *)
Definition truthy (v : option value) : bool :=
  match v with
  | None | Some VNull => false
  | Some (VBool b) => b
  | Some (VNum q) => negb (Qeq_bool q 0)
  | Some (VStr s) => negb (bool_decide (s = ""))
  | Some VObject => true
  end.

(** ** Anchored regular expressions

    A pattern [/^r$/] without flags accepts exactly the strings of the
    regular language of [r]; membership is decided with derivatives. *)
Inductive regex : Type :=
| Void : regex
| Eps : regex
| Class : (ascii -> bool) -> regex
| Cat : regex -> regex -> regex
| Alt : regex -> regex -> regex
| Star : regex -> regex.

Fixpoint nullable (r : regex) : bool :=
  match r with
  | Void => false
  | Eps => true
  | Class _ => false
  | Cat r1 r2 => nullable r1 && nullable r2
  | Alt r1 r2 => nullable r1 || nullable r2
  | Star _ => true
  end.

Fixpoint deriv (a : ascii) (r : regex) : regex :=
  match r with
  | Void => Void
  | Eps => Void
  | Class p => if p a then Eps else Void
  | Cat r1 r2 =>
      if nullable r1
      then Alt (Cat (deriv a r1) r2) (deriv a r2)
      else Cat (deriv a r1) r2
  | Alt r1 r2 => Alt (deriv a r1) (deriv a r2)
  | Star r1 => Cat (deriv a r1) (Star r1)
  end.

(** [/^r$/.test(s)] *)
Fixpoint test (r : regex) (s : string) : bool :=
  match s with
  | EmptyString => nullable r
  | String a s' => test (deriv a r) s'
  end.


(** Every character of the string satisfies [p]. *)
Fixpoint every (p : ascii -> bool) (s : string) : bool :=
  match s with
  | EmptyString => true
  | String a s' => p a && every p s'
  end.

Definition Plus (r : regex) : regex := Cat r (Star r).       (* r+ *)
Definition Opt (r : regex) : regex := Alt Eps r.             (* r? *)

(** [r{n}] *)
Fixpoint Repeat (n : nat) (r : regex) : regex :=
  match n with
  | O => Eps
  | S n' => Cat r (Repeat n' r)
  end.

(** [r{0,n}] *)
Fixpoint UpTo (n : nat) (r : regex) : regex :=
  match n with
  | O => Eps
  | S n' => Opt (Cat r (UpTo n' r))
  end.

Definition inRange (lo hi : N) (a : ascii) : bool :=
  let n := N_of_ascii a in ((lo <=? n) && (n <=? hi))%N.

Definition isDigit (a : ascii) : bool := inRange 48 57 a.           (* \d *)
Definition isWord (a : ascii) : bool :=                             (* \w *)
  inRange 48 57 a || inRange 65 90 a || inRange 97 122 a
  || bool_decide (a = "_"%char).
Definition isHex (a : ascii) : bool :=                      (* [0-9a-fA-F] *)
  inRange 48 57 a || inRange 97 102 a || inRange 65 70 a.
Definition isChar (c a : ascii) : bool := bool_decide (a = c).

(** ** More of the runtime, used by the read-only endpoints *)

(** [Math.ceil(a / b)] for an integer [a].  A zero divisor gives an
    infinity or [NaN], which the callers below never produce. *)
Definition Math_ceil_div (a : Z) (b : number) : number :=
  match b with
  | Num d => if d =? 0 then NaN else Num (- ((- a) / d))
  | NaN => NaN
  end.

(** [a < b] and [a > b] on numbers: false as soon as one is [NaN]. *)
Definition lt (a b : number) : bool :=
  match a, b with
  | Num x, Num y => x <? y
  | _, _ => false
  end.

(** [arr.sort()] on strings: ascending order of the code units.  The
    order is total, so the outcome does not depend on the algorithm. *)
Fixpoint insertSorted (x : string) (l : list string) : list string :=
  match l with
  | [] => [x]
  | y :: l' => if String.leb x y then x :: l else y :: insertSorted x l'
  end.

Definition sort (l : list string) : list string := foldr insertSorted [] l.

(** [x || 0] on a number. *)
Definition orZero (x : Q) : Q := if Qeq_bool x 0 then 0%Q else x.

(** [Math.round(x)]: the nearest integer, halves upwards. *)
Definition Math_round (x : Q) : Z := Qfloor (x + (1 # 2)).

End JS.

(* ===================================================================== *)
(** * Rate limiter (middlewares/authMiddleware.js, [rateLimit]) *)
(* ===================================================================== *)

Module RateLimiter.

(** The part of the request the middleware reads. *)
Record Request : Set := mkRequest {
  ip : option string;
  remoteAddress : option string
}.

(** [req.ip || req.connection.remoteAddress]: an absent or empty [ip]
    is falsy.  The key may be [undefined] ([None]). *)
Definition clientIP (req : Request) : option string :=
  match ip req with
  | Some EmptyString | None => remoteAddress req
  | Some s => Some s
  end.

(** What the middleware does with the response. *)
Inductive Outcome : Set :=
| Next : Outcome
| Reject (status : Z) (message : string) (retryAfter : Z) : Outcome.

(** [Math.ceil(windowMs / 1000)] on an integer number of milliseconds. *)
Definition ceilSeconds (windowMs : Z) : Z := - ((- windowMs) / 1000).

(** One call of the middleware returned by [rateLimit(maxRequests,
    windowMs)], at clock reading [now], on the module-level [Map]. *)
Definition rateLimit (maxRequests windowMs : Z)
    (rateLimiter : gmap (option string) (list Z))
    (req : Request) (now : Z)
  : gmap (option string) (list Z) * Outcome :=
  let client := clientIP req in
  let windowStart := now - windowMs in
  (* Clean old entries *)
  let cleaned :=
    match rateLimiter !! client with
    | Some times =>
        <[client := filter (λ time, windowStart < time) times]> rateLimiter
    | None => rateLimiter
    end in
  (* Get current requests *)
  let currentRequests := default [] (cleaned !! client) in
  if maxRequests <=? Z.of_nat (length currentRequests) then
    (cleaned,
     Reject 429 "Too many requests. Please try again later."
            (ceilSeconds windowMs))
  else
    (* Add current request *)
    (<[client := currentRequests ++ [now]]> cleaned, Next).

(** A sequence of calls, oldest first, with the outcome of each. *)
Fixpoint run (maxRequests windowMs : Z)
    (rateLimiter : gmap (option string) (list Z))
    (calls : list (Request * Z))
  : gmap (option string) (list Z) * list Outcome :=
  match calls with
  | [] => (rateLimiter, [])
  | (req, now) :: rest =>
      let '(st, out) := rateLimit maxRequests windowMs rateLimiter req now in
      let '(st', outs) := run maxRequests windowMs st rest in
      (st', out :: outs)
  end.

(** The timestamps recorded for [client] that are later than [since]. *)
Definition recent (client : option string) (since : Z)
    (rateLimiter : gmap (option string) (list Z)) : list Z :=
  filter (λ time, since < time) (default [] (rateLimiter !! client)).

Definition isNext (o : Outcome) : bool :=
  match o with Next => true | Reject _ _ _ => false end.

(** The clock readings later than [since] of the calls of [client]
    that were let through, given the calls and their outcomes. *)
Fixpoint admittedSince (client : option string) (since : Z)
    (calls : list (Request * Z)) (outcomes : list Outcome) : list Z :=
  match calls, outcomes with
  | (req, time) :: calls', o :: outcomes' =>
      if bool_decide (clientIP req = client) && isNext o
         && bool_decide (since < time)
      then time :: admittedSince client since calls' outcomes'
      else admittedSince client since calls' outcomes'
  | _, _ => []
  end.

(** The deployed instance: [app.use(rateLimit(100, 15 * 60 * 1000))]. *)
Definition appRateLimit := rateLimit 100 (15 * 60 * 1000).

(** No client has more than [maxRequests] timestamps on record. *)
Definition bounded (maxRequests : Z)
    (rateLimiter : gmap (option string) (list Z)) : Prop :=
  forall client times,
    rateLimiter !! client = Some times ->
    Z.of_nat (length times) <= maxRequests.

End RateLimiter.

(* ===================================================================== *)
(** * Authentication and authorization (middlewares/authMiddleware.js,
      [authMiddleware], [authorize]) *)
(* ===================================================================== *)

Module Auth.

(** The payload of a verified token, attached to the request as
    [req.user]. *)
Record Claims : Set := mkClaims {
  userId : string;
  email : string;
  role : string
}.

(** [jwt.verify(token, secret)] returns the payload or throws an error
    with a [name]. *)
Inductive Verified : Set :=
| Decoded (user : Claims) : Verified
| Thrown (name : string) : Verified.

(** A guard that answers instead of calling [next()]: the status and
    the message of [{ success: false, message }]. *)
Record Denied : Set := mkDenied {
  status : Z;
  message : string
}.

Definition present (s : option string) : bool :=
  match s with
  | Some s => negb (bool_decide (s = ""))
  | None => false
  end.

(** [authMiddleware], given [jwt.verify], [process.env.JWT_SECRET] and
    the [Authorization] header: the denial, or the claims it attaches. *)
Definition authMiddleware (jwt_verify : string -> string -> Verified)
    (JWT_SECRET : option string) (authHeader : option string)
  : Denied + Claims :=
  if negb (present authHeader) then
    inl (mkDenied 401 "Access denied. No token provided")
  else
    let authHeader := default "" authHeader in
    (* Extract token from "Bearer <token>" format *)
    let token :=
      if JS.startsWith "Bearer " authHeader then JS.slice 7 authHeader
      else authHeader in
    if negb (present JWT_SECRET) then
      inl (mkDenied 500 "Internal Server Error")
    else
      match jwt_verify token (default "" JWT_SECRET) with
      | Decoded user => inr user
      | Thrown name =>
          if bool_decide (name = "TokenExpiredError") then
            inl (mkDenied 401 "Token expired. Please login again.")
          else if bool_decide (name = "JsonWebTokenError") then
            inl (mkDenied 403 "Invalid token")
          else if bool_decide (name = "NotBeforeError") then
            inl (mkDenied 403 "Token not active yet")
          else inl (mkDenied 500 "Internal Server Error")
      end.

(** [authorize(...roles)], given [req.user]: the denial, if any. *)
Definition authorize (roles : list string) (user : option Claims)
  : option Denied :=
  match user with
  | None => Some (mkDenied 401 "Access denied. Please authenticate first.")
  | Some user =>
      if negb (JS.includes roles (role user)) then
        Some (mkDenied 403 "Access denied. Insufficient permissions.")
      else None
  end.

End Auth.

(* ===================================================================== *)
(** * Resilience helpers ([withTimeout], [withRetry],
      [dbOperationWithTimeout]) *)
(* ===================================================================== *)

Module Resilience.

(** A thrown error object: its message and its [status] property when it
    has one. *)
Record Error : Set := mkError {
  message : string;
  status : option Z
}.

(** How a promise settles.  [Rejected None] is a rejection with
    [undefined] (what [throw lastError] raises when nothing was caught). *)
Inductive Settled (A : Type) : Type :=
| Resolved (value : A) : Settled A
| Rejected (reason : option Error) : Settled A.
Arguments Resolved {A} value.
Arguments Rejected {A} reason.

(** One invocation of the wrapped operation: the time it takes on the
    virtual clock (milliseconds) and how it settles. *)
Record Attempt (A : Type) : Type := mkAttempt {
  duration : Z;
  outcome : A + Error
}.
Arguments mkAttempt {A} duration outcome.
Arguments duration {A} a.
Arguments outcome {A} a.

(** What an observer of the wrapper sees, in order. *)
Inductive Event : Set :=
| Invoked (took : Z) : Event      (* [await fn()] *)
| Slept (ms : Z) : Event.         (* [await new Promise(r => setTimeout(r, ms))] *)

Record Run (A : Type) : Type := mkRun {
  result : Settled A;
  trace : list Event
}.
Arguments mkRun {A} result trace.
Arguments result {A} r.
Arguments trace {A} r.

Fixpoint invocations (t : list Event) : nat :=
  match t with
  | [] => O
  | Invoked _ :: t' => S (invocations t')
  | Slept _ :: t' => invocations t'
  end.

Fixpoint sleeps (t : list Event) : list Z :=
  match t with
  | [] => []
  | Invoked _ :: t' => sleeps t'
  | Slept ms :: t' => ms :: sleeps t'
  end.

Fixpoint elapsed (t : list Event) : Z :=
  match t with
  | [] => 0
  | Invoked d :: t' => d + elapsed t'
  | Slept ms :: t' => ms + elapsed t'
  end.


(** [error.status && error.status >= 400 && error.status < 500] *)
Definition isClientError (error : Error) : bool :=
  match status error with
  | Some s => negb (s =? 0) && (400 <=? s) && (s <? 500)
  | None => false
  end.

(** The [for] loop of [withRetry], entered with counter [i], [fuel]
    iterations left and the current [lastError].  The [i]-th invocation
    of the operation behaves as [fn i]. *)
Fixpoint retryLoop {A} (fn : nat -> Attempt A) (maxRetries delay : Z)
    (i : nat) (fuel : nat) (lastError : option Error) : Run A :=
  match fuel with
  | O => mkRun (Rejected lastError) []                 (* throw lastError *)
  | S fuel' =>
      let a := fn i in
      match outcome a with
      | inl v => mkRun (Resolved v) [Invoked (duration a)]
      | inr error =>
          if isClientError error then
            mkRun (Rejected (Some error)) [Invoked (duration a)]
          else
            let rest := retryLoop fn maxRetries delay (S i) fuel' (Some error) in
            let pause :=
              if Z.of_nat i <? maxRetries - 1
              then [Slept (delay * 2 ^ Z.of_nat i)] else [] in
            mkRun (result rest) (Invoked (duration a) :: pause ++ trace rest)
      end
  end.

(** [withRetry(fn, maxRetries = 3, delay = 1000)]; the loop
    [for (let i = 0; i < maxRetries; i++)] runs [maxRetries] times. *)
Definition withRetry {A} (fn : nat -> Attempt A)
    (maxRetries delay : option Z) : Run A :=
  let maxRetries := default 3 maxRetries in
  let delay := default 1000 delay in
  retryLoop fn maxRetries delay 0 (Z.to_nat maxRetries) None.



(** [withTimeout(promise, timeoutMs = 25000, errorMessage = 'Operation
    timeout')]: a race between the promise, which settles after the
    time its run takes, and a timer.  When both are due at the same
    instant the event loop decides; [timerFirst] is that decision. *)
Definition withTimeout {A} (timerFirst : bool) (promise : Run A)
    (timeoutMs : option Z) (errorMessage : option string) : Settled A :=
  let timeoutMs := default 25000 timeoutMs in
  let errorMessage := default "Operation timeout" errorMessage in
  let t := elapsed (trace promise) in
  if (t <? timeoutMs) || (negb timerFirst && (t =? timeoutMs))
  then result promise
  else Rejected (Some (mkError errorMessage None)).

(** [dbOperationWithTimeout(operation, timeoutMs = 20000)] *)
Definition dbOperationWithTimeout {A} (timerFirst : bool)
    (operation : nat -> Attempt A) (timeoutMs : option Z) : Settled A :=
  let timeoutMs := default 20000 timeoutMs in
  withTimeout timerFirst
    (withRetry operation (Some 2) (Some 500))
    (Some timeoutMs)
    (Some "Database operation timeout").

(** Total time spent in backoff delays. *)
Definition slept (t : list Event) : Z := foldr Z.add 0 (sleeps t).

(** Total time spent inside the operation. *)
Fixpoint worked (t : list Event) : Z :=
  match t with
  | [] => 0
  | Invoked d :: t' => d + worked t'
  | Slept _ :: t' => worked t'
  end.

End Resilience.

(* ===================================================================== *)
(** * models/User.js *)
(* ===================================================================== *)

Module UserModel.

(** ** The schema *)

Record User : Set := mkUser {
  _id : string;
  name : string;
  email : string;
  phoneNumber : string;
  role : string;
  password : string;
  isActive : bool;
  lastLogin : option Z;
  createdAt : Z;
  updatedAt : Z
}.

(** [/^\w+([.-]?\w+)*@\w+([.-]?\w+)*(\.\w{2,3})+$/] *)
Definition emailPattern : JS.regex :=
  let w := JS.Class JS.isWord in
  let dotOrDash :=
    JS.Class (λ a, JS.isChar "."%char a || JS.isChar "-"%char a) in
  let tail := JS.Star (JS.Cat (JS.Opt dotOrDash) (JS.Plus w)) in
  JS.Cat (JS.Plus w) (JS.Cat tail
    (JS.Cat (JS.Class (JS.isChar "@"%char))
      (JS.Cat (JS.Plus w) (JS.Cat tail
        (JS.Plus (JS.Cat (JS.Class (JS.isChar "."%char))
                         (JS.Cat w (JS.Cat w (JS.Opt w))))))))).

(** [/^[\+]?[1-9][\d]{0,15}$/] *)
Definition phonePattern : JS.regex :=
  JS.Cat (JS.Opt (JS.Class (JS.isChar "+"%char)))
    (JS.Cat (JS.Class (JS.inRange 49 57))
            (JS.UpTo 15 (JS.Class JS.isDigit))).

Definition roleValues : list string := ["admin"; "user"].

(** The document handed to [User.create]. *)
Record NewUser : Set := mkNewUser {
  new_name : string;
  new_email : string;
  new_phoneNumber : string;
  new_password : string;
  new_role : string
}.

(** The setters of the schema: [trim] on name, email and phone number,
    [lowercase] on email. *)
Definition setName (s : string) : string := JS.trim s.
Definition setEmail (s : string) : string := JS.trim (JS.toLowerCase s).
Definition setPhoneNumber (s : string) : string := JS.trim s.

(** The validators of one path run in declaration order and the first
    failure is the error of that path. *)
Definition firstFailure (checks : list (bool * string)) : list string :=
  match filter (λ c, c.1 = false) checks with
  | [] => []
  | c :: _ => [c.2]
  end.

Definition nonEmpty (s : string) : bool := negb (bool_decide (s = "")).

(** Messages of the paths that fail validation, in schema order.  The
    [match] validator skips the empty string (left to [required]). *)
Definition validate (u : User) : list string :=
  firstFailure
    [ (nonEmpty (name u), "Name is required");
      (2 <=? Z.of_nat (String.length (name u)),
       "Name must be at least 2 characters long");
      (Z.of_nat (String.length (name u)) <=? 50,
       "Name cannot exceed 50 characters") ]
  ++ firstFailure
    [ (nonEmpty (email u), "Email is required");
      (JS.test emailPattern (email u), "Please enter a valid email") ]
  ++ firstFailure
    [ (nonEmpty (phoneNumber u), "Phone number is required");
      (JS.test phonePattern (phoneNumber u),
       "Please enter a valid phone number") ]
  ++ firstFailure
    [ (JS.includes roleValues (role u), "Role must be either admin or user") ]
  ++ firstFailure
    [ (nonEmpty (password u), "Password is required");
      (6 <=? Z.of_nat (String.length (password u)),
       "Password must be at least 6 characters long") ].

(** Why a store call throws. *)
Inductive DbError : Set :=
| ValidationError (errors : list string) : DbError
| DuplicateKey (path : string) : DbError.       (* E11000, unique index *)

(** [User.create(doc)]: setters and defaults, validation, then the
    insert under the unique indexes on [email] and [phoneNumber].
    [oid] is the identifier the driver generates and [now] the clock
    reading used for the timestamps. *)
Definition create (users : list User) (oid : string) (now : Z)
    (doc : NewUser) : DbError + (list User * User) :=
  let u := {| _id := oid;
              name := setName (new_name doc);
              email := setEmail (new_email doc);
              phoneNumber := setPhoneNumber (new_phoneNumber doc);
              role := new_role doc;
              password := new_password doc;
              isActive := true;
              lastLogin := None;
              createdAt := now;
              updatedAt := now |} in
  match validate u with
  | (_ :: _) as errors => inl (ValidationError errors)
  | [] =>
      if existsb (λ v, bool_decide (email v = email u)) users
      then inl (DuplicateKey "email")
      else if existsb (λ v, bool_decide (phoneNumber v = phoneNumber u)) users
      then inl (DuplicateKey "phoneNumber")
      else inr (users ++ [u], u)
  end.

(** [User.findOne({ $or: [{ email }, { phoneNumber }] })]: the first
    stored user matching either filter; filter values are cast with the
    setters of their path. *)
Definition findOneByEmailOrPhone (users : list User)
    (email' phoneNumber' : string) : option User :=
  find (λ u, bool_decide (email u = setEmail email')
             || bool_decide (phoneNumber u = setPhoneNumber phoneNumber'))
       users.

(** [User.findOne({ email })] *)
Definition findOneByEmail (users : list User) (email' : string)
  : option User :=
  find (λ u, bool_decide (email u = setEmail email')) users.

(** [User.findByIdAndUpdate(id, { lastLogin })]: updates the first user
    with that identifier; the [timestamps] option refreshes
    [updatedAt]. *)
Fixpoint updateLastLogin (users : list User) (id : string) (now : Z)
  : list User :=
  match users with
  | [] => []
  | u :: rest =>
      if bool_decide (_id u = id)
      then {| _id := _id u; name := name u; email := email u;
              phoneNumber := phoneNumber u; role := role u;
              password := password u; isActive := isActive u;
              lastLogin := Some now; createdAt := createdAt u;
              updatedAt := now |} :: rest
      else u :: updateLastLogin rest id now
  end.

End UserModel.

(* ===================================================================== *)
(** * controllers/user-controller.js *)
(* ===================================================================== *)

Module UserController.

(** [req.body] of the auth routes.  [role] stands for a property the
    caller may add to the JSON document. *)
Record Body : Set := mkBody {
  name : option string;
  email : option string;
  phoneNumber : option string;
  password : option string;
  role : option string
}.

(** What [jwt.sign(payload, secret, { expiresIn })] signs. *)
Record Token : Set := mkToken {
  userId : string;
  token_email : string;
  token_role : string;
  secret : string;
  expiresIn : string
}.

(** The [user] object of a response. *)
Record UserView : Set := mkUserView {
  id : string;
  view_name : string;
  view_email : string;
  view_phoneNumber : string;
  view_role : string;
  view_createdAt : option Z;
  view_lastLogin : option Z
}.

Record Response : Set := mkResponse {
  status : Z;
  success : bool;
  message : string;
  errors : option (list string);
  token : option Token;
  user : option UserView
}.

Definition failure (status : Z) (message : string) : Response :=
  mkResponse status false message None None None.

(** [!value || (typeof value === 'string' && value.trim() === '')] *)
Definition blank (value : option string) : bool :=
  match value with
  | None => true
  | Some s => bool_decide (s = "") || bool_decide (JS.trim s = "")
  end.

(** [validateInput(fields)], the fields in the order of the object
    literal. *)
Definition validateInput (fields : list (string * option string))
  : list string :=
  omap (λ '(field, value),
          if blank value then Some (field +:+ " is required") else None)
       fields.

Section Handlers.

(** [bcrypt.hash(password, saltRounds)] and
    [bcrypt.compare(password, hash)] of bcryptjs, and
    [process.env.JWT_SECRET], which the server checks at start-up. *)
Variable bcrypt_hash : string -> Z -> string.
Variable bcrypt_compare : string -> string -> bool.
Variable JWT_SECRET : string.

Definition generateToken (user : UserModel.User) : Token :=
  {| userId := UserModel._id user;
     token_email := UserModel.email user;
     token_role := UserModel.role user;
     secret := JWT_SECRET;
     expiresIn := "7d" |}.

(** [registerUser]: the collection before the call, the identifier
    and the clock reading the store will use, and the body; returns
    the collection after the call and the response. *)
Definition registerUser (users : list UserModel.User) (oid : string)
    (now : Z) (body : Body) : list UserModel.User * Response :=
  (* Validate input *)
  let validationErrors :=
    validateInput [("name", name body); ("email", email body);
                   ("phoneNumber", phoneNumber body);
                   ("password", password body)] in
  if (0 <? Z.of_nat (length validationErrors)) then
    (users, mkResponse 400 false "Validation failed"
              (Some validationErrors) None None)
  else
    (* the four fields are present, by the validation above *)
    let name' := default "" (name body) in
    let email' := default "" (email body) in
    let phoneNumber' := default "" (phoneNumber body) in
    let password' := default "" (password body) in
    (* Check if user already exists *)
    match UserModel.findOneByEmailOrPhone users email' phoneNumber' with
    | Some existingUser =>
        (users,
         failure 409
           (if bool_decide (UserModel.email existingUser = email')
            then "User with this email already exists"
            else "User with this phone number already exists"))
    | None =>
        (* Validate password length *)
        if Z.of_nat (String.length password') <? 6 then
          (users,
           failure 400 "Password must be at least 6 characters long")
        else
          (* Hash password *)
          let saltRounds := 12 in
          let hashedPassword := bcrypt_hash password' saltRounds in
          (* Create new user *)
          match UserModel.create users oid now
                  {| UserModel.new_name := JS.trim name';
                     UserModel.new_email := JS.toLowerCase (JS.trim email');
                     UserModel.new_phoneNumber := JS.trim phoneNumber';
                     UserModel.new_password := hashedPassword;
                     UserModel.new_role := "user" |} with
          | inl _ =>
              (users,
               failure 500 "Internal server error during registration")
          | inr (users', newUser) =>
              (* Generate token *)
              let token := generateToken newUser in
              (users',
               mkResponse 201 true "User registered successfully" None
                 (Some token)
                 (Some {| id := UserModel._id newUser;
                          view_name := UserModel.name newUser;
                          view_email := UserModel.email newUser;
                          view_phoneNumber := UserModel.phoneNumber newUser;
                          view_role := UserModel.role newUser;
                          view_createdAt :=
                            Some (UserModel.createdAt newUser);
                          view_lastLogin := None |}))
          end
    end.

(** [login] *)
Definition login (users : list UserModel.User) (now : Z) (body : Body)
  : list UserModel.User * Response :=
  (* Validate input *)
  let validationErrors :=
    validateInput [("email", email body); ("password", password body)] in
  if (0 <? Z.of_nat (length validationErrors)) then
    (users, mkResponse 400 false "Validation failed"
              (Some validationErrors) None None)
  else
    let email' := default "" (email body) in
    let password' := default "" (password body) in
    (* Find user by email *)
    match UserModel.findOneByEmail users
            (JS.toLowerCase (JS.trim email')) with
    | None => (users, failure 401 "Invalid email or password")
    | Some user =>
        (* Check if user is active *)
        if negb (UserModel.isActive user) then
          (users,
           failure 401 "Account is deactivated. Please contact support.")
        (* Verify password *)
        else if negb (bcrypt_compare password' (UserModel.password user))
        then (users, failure 401 "Invalid email or password")
        else
          (* Update last login, generate token *)
          (UserModel.updateLastLogin users (UserModel._id user) now,
           mkResponse 200 true "Login successful" None
             (Some (generateToken user))
             (Some {| id := UserModel._id user;
                      view_name := UserModel.name user;
                      view_email := UserModel.email user;
                      view_phoneNumber := UserModel.phoneNumber user;
                      view_role := UserModel.role user;
                      view_createdAt := None;
                      view_lastLogin := Some now |}))
    end.

(** [createAdmin]: as [registerUser], with the role "admin", its own
    messages and no token in the response. *)
Definition createAdmin (users : list UserModel.User) (oid : string)
    (now : Z) (body : Body) : list UserModel.User * Response :=
  (* Validate input *)
  let validationErrors :=
    validateInput [("name", name body); ("email", email body);
                   ("phoneNumber", phoneNumber body);
                   ("password", password body)] in
  if (0 <? Z.of_nat (length validationErrors)) then
    (users, mkResponse 400 false "Validation failed"
              (Some validationErrors) None None)
  else
    let name' := default "" (name body) in
    let email' := default "" (email body) in
    let phoneNumber' := default "" (phoneNumber body) in
    let password' := default "" (password body) in
    (* Check if user already exists *)
    match UserModel.findOneByEmailOrPhone users email' phoneNumber' with
    | Some existingUser =>
        (users,
         failure 409
           (if bool_decide (UserModel.email existingUser = email')
            then "User with this email already exists"
            else "User with this phone number already exists"))
    | None =>
        (* Validate password length *)
        if Z.of_nat (String.length password') <? 6 then
          (users,
           failure 400 "Password must be at least 6 characters long")
        else
          (* Hash password *)
          let saltRounds := 12 in
          let hashedPassword := bcrypt_hash password' saltRounds in
          (* Create new admin *)
          match UserModel.create users oid now
                  {| UserModel.new_name := JS.trim name';
                     UserModel.new_email := JS.toLowerCase (JS.trim email');
                     UserModel.new_phoneNumber := JS.trim phoneNumber';
                     UserModel.new_password := hashedPassword;
                     UserModel.new_role := "admin" |} with
          | inl _ =>
              (users,
               failure 500 "Internal server error during admin creation")
          | inr (users', newAdmin) =>
              (users',
               mkResponse 201 true "Admin created successfully" None None
                 (Some {| id := UserModel._id newAdmin;
                          view_name := UserModel.name newAdmin;
                          view_email := UserModel.email newAdmin;
                          view_phoneNumber := UserModel.phoneNumber newAdmin;
                          view_role := UserModel.role newAdmin;
                          view_createdAt :=
                            Some (UserModel.createdAt newAdmin);
                          view_lastLogin := None |}))
          end
    end.

End Handlers.

(** The four required fields are present and not blank. *)
Definition complete (body : Body) : bool :=
  negb (blank (name body)) && negb (blank (email body))
  && negb (blank (phoneNumber body)) && negb (blank (password body)).

(** The email or the phone number of the body is already registered. *)
Definition registered (users : list UserModel.User) (body : Body) : bool :=
  bool_decide
    (is_Some (UserModel.findOneByEmailOrPhone users
                (default "" (email body)) (default "" (phoneNumber body)))).

End UserController.

(* ===================================================================== *)
(** * models/Menu.js *)
(* ===================================================================== *)

Module MenuModel.

Record NutritionalInfo : Set := mkNutritionalInfo {
  calories : option Q;
  protein : option Q;
  carbs : option Q;
  fat : option Q
}.

Record Menu : Set := mkMenu {
  _id : string;
  name : string;
  price : Q;
  images : list string;
  ingredients : option string;
  featuredImage : option string;
  description : option string;
  category : string;
  isAvailable : bool;
  preparationTime : option Q;
  nutritionalInfo : option NutritionalInfo;
  allergens : list string;
  spicyLevel : Q;
  createdAt : Z;
  updatedAt : Z
}.

(** [enum.values] of the [category] path. *)
Definition categoryValues : list string :=
  ["SOUPS & SWALLOW"; "APPETIZERS"; "DESSERT"; "BEVERAGE";
   "LIGHT FOOD OPTIONS"; "BREAKFAST MENU"; "PEPPERSOUP CORNER"; "SPECIAL"].

Definition categoryMessage : string :=
  "Category must be one of: SOUPS & SWALLOW, APPETIZERS, DESSERT, BEVERAGE, LIGHT FOOD OPTIONS, BREAKFAST MENU, PEPPERSOUP CORNER ,SPECIAL".

Definition allergenValues : list string :=
  ["gluten"; "dairy"; "nuts"; "eggs"; "soy"; "shellfish"; "fish"].

(** A validation failure: the message the schema gives for it or, where
    the schema gives none, the path and the validator whose default
    message Mongoose fills in. *)
Inductive Issue : Set :=
| Message (text : string) : Issue
| DefaultMessage (path kind : string) : Issue.

Definition firstFailure (checks : list (bool * Issue)) : list Issue :=
  match filter (λ c, c.1 = false) checks with
  | [] => []
  | c :: _ => [c.2]
  end.

Definition nonEmpty (s : string) : bool := negb (bool_decide (s = "")).
Definition len (s : string) : Z := Z.of_nat (String.length s).
Definition atLeast (n : Z) (q : Q) : bool := Qle_bool (inject_Z n) q.
Definition atMost (n : Z) (q : Q) : bool := Qle_bool q (inject_Z n).

(** ** Setters: [trim] on the string paths, [lowercase] on [category] *)
Definition setName (s : string) : string := JS.trim s.
Definition setText (s : option string) : option string := JS.trim <$> s.
Definition setCategory (s : string) : string := JS.trim (JS.toLowerCase s).

(** ** Validators, path by path, on the value the setters produced *)
Definition validateName (v : string) : list Issue :=
  firstFailure
    [ (nonEmpty v, Message "Menu item name is required");
      (2 <=? len v, Message "Name must be at least 2 characters long");
      (len v <=? 100, Message "Name cannot exceed 100 characters") ].

Definition validatePrice (v : Q) : list Issue :=
  firstFailure
    [ (atLeast 0 v, Message "Price cannot be negative");
      (atLeast 0 v, Message "Price must be a valid positive number") ].

Definition validateImages (v : list string) : list Issue :=
  firstFailure
    [ (forallb (λ url, 0 <? len (JS.trim url)) v,
       Message "All image URLs must be valid strings") ].

Definition validateIngredients (v : option string) : list Issue :=
  firstFailure
    [ (from_option (λ s, len s <=? 500) true v,
       Message "Ingredients description cannot exceed 500 characters") ].

Definition validateDescription (v : option string) : list Issue :=
  firstFailure
    [ (from_option (λ s, len s <=? 1000) true v,
       Message "Description cannot exceed 1000 characters") ].

Definition validateCategory (v : string) : list Issue :=
  firstFailure
    [ (nonEmpty v, Message "Category is required");
      (JS.includes categoryValues v, Message categoryMessage) ].

Definition validatePreparationTime (v : option Q) : list Issue :=
  firstFailure
    [ (from_option (atLeast 1) true v,
       Message "Preparation time must be at least 1 minute");
      (from_option (atMost 180) true v,
       Message "Preparation time cannot exceed 3 hours") ].

Definition validateNutrient (path : string) (v : option Q) : list Issue :=
  firstFailure [ (from_option (atLeast 0) true v, DefaultMessage path "min") ].

Definition validateNutritionalInfo (v : option NutritionalInfo)
  : list Issue :=
  match v with
  | None => []
  | Some n =>
      validateNutrient "nutritionalInfo.calories" (calories n)
      ++ validateNutrient "nutritionalInfo.protein" (protein n)
      ++ validateNutrient "nutritionalInfo.carbs" (carbs n)
      ++ validateNutrient "nutritionalInfo.fat" (fat n)
  end.

Definition validateAllergens (v : list string) : list Issue :=
  if forallb (JS.includes allergenValues) v then []
  else [DefaultMessage "allergens" "enum"].

Definition validateSpicyLevel (v : Q) : list Issue :=
  firstFailure
    [ (atLeast 0 v, DefaultMessage "spicyLevel" "min");
      (atMost 5 v, DefaultMessage "spicyLevel" "max") ].

(** Failures of a whole document, in schema order. *)
Definition validate (m : Menu) : list Issue :=
  validateName (name m)
  ++ validatePrice (price m)
  ++ validateImages (images m)
  ++ validateIngredients (ingredients m)
  ++ validateDescription (description m)
  ++ validateCategory (category m)
  ++ validatePreparationTime (preparationTime m)
  ++ validateNutritionalInfo (nutritionalInfo m)
  ++ validateAllergens (allergens m)
  ++ validateSpicyLevel (spicyLevel m).

Inductive DbError : Set :=
| ValidationError (errors : list Issue) : DbError
| DuplicateKey (path : string) : DbError.       (* E11000, unique index *)

(** The object literal [menuData] built by the create handler. *)
Record MenuData : Set := mkMenuData {
  data_name : string;
  data_price : Q;
  data_description : option string;
  data_featuredImage : option string;
  data_images : list string;
  data_isAvailable : bool;
  data_ingredients : option string;
  data_category : string;
  data_preparationTime : option Q;
  data_nutritionalInfo : option NutritionalInfo;
  data_allergens : option (list string);
  data_spicyLevel : option Q
}.

(** [Menu.create(menuData)]: setters and defaults, validation, then the
    insert under the unique index on [name]. *)
Definition create (menus : list Menu) (oid : string) (now : Z)
    (d : MenuData) : DbError + (list Menu * Menu) :=
  let m := {| _id := oid;
              name := setName (data_name d);
              price := data_price d;
              images := data_images d;
              ingredients := setText (data_ingredients d);
              featuredImage := setText (data_featuredImage d);
              description := setText (data_description d);
              category := setCategory (data_category d);
              isAvailable := data_isAvailable d;
              preparationTime := data_preparationTime d;
              nutritionalInfo := data_nutritionalInfo d;
              allergens := default [] (data_allergens d);
              spicyLevel := default (inject_Z 0) (data_spicyLevel d);
              createdAt := now;
              updatedAt := now |} in
  match validate m with
  | (_ :: _) as errors => inl (ValidationError errors)
  | [] =>
      if existsb (λ v, bool_decide (name v = name m)) menus
      then inl (DuplicateKey "name")
      else inr (menus ++ [m], m)
  end.

(** [Menu.findOne({ name })] *)
Definition findOneByName (menus : list Menu) (name' : string)
  : option Menu :=
  find (λ m, bool_decide (name m = setName name')) menus.

(** An identifier is stored as the lower-case hexadecimal form of its
    ObjectId; a filter value is cast to an ObjectId first. *)
Definition sameId (id : string) (m : Menu) : bool :=
  bool_decide (_id m = JS.toLowerCase id).

(** [Menu.findById(id)] *)
Definition findById (menus : list Menu) (id : string) : option Menu :=
  find (sameId id) menus.

(** [Menu.findByIdAndDelete(id)]: removes the first match and returns
    it. *)
Fixpoint findByIdAndDelete (menus : list Menu) (id : string)
  : list Menu * option Menu :=
  match menus with
  | [] => ([], None)
  | m :: rest =>
      if sameId id m then (rest, Some m)
      else let '(rest', found) := findByIdAndDelete rest id in
           (m :: rest', found)
  end.

(** The update document, after the handler has cleaned it: the paths
    that are set. *)
Record Updates : Set := mkUpdates {
  set_name : option string;
  set_price : option Q;
  set_description : option string;
  set_featuredImage : option string;
  set_images : option (list string);
  set_isAvailable : option bool;
  set_ingredients : option string;
  set_category : option string;
  set_preparationTime : option Q;
  set_nutritionalInfo : option NutritionalInfo;
  set_allergens : option (list string);
  set_spicyLevel : option Q
}.

(** The update after casting: every string path through its setters. *)
Definition castUpdates (u : Updates) : Updates :=
  {| set_name := setName <$> set_name u;
     set_price := set_price u;
     set_description := setText (set_description u);
     set_featuredImage := setText (set_featuredImage u);
     set_images := set_images u;
     set_isAvailable := set_isAvailable u;
     set_ingredients := setText (set_ingredients u);
     set_category := setCategory <$> set_category u;
     set_preparationTime := set_preparationTime u;
     set_nutritionalInfo := set_nutritionalInfo u;
     set_allergens := set_allergens u;
     set_spicyLevel := set_spicyLevel u |}.

(** Update validators ([runValidators: true]) run on the paths the
    update sets, and only on them. *)
Definition validateUpdates (u : Updates) : list Issue :=
  from_option validateName [] (set_name u)
  ++ from_option validatePrice [] (set_price u)
  ++ from_option validateImages [] (set_images u)
  ++ validateIngredients (set_ingredients u)
  ++ validateDescription (set_description u)
  ++ from_option validateCategory [] (set_category u)
  ++ validatePreparationTime (set_preparationTime u)
  ++ validateNutritionalInfo (set_nutritionalInfo u)
  ++ from_option validateAllergens [] (set_allergens u)
  ++ from_option validateSpicyLevel [] (set_spicyLevel u).

Definition applyUpdates (u : Updates) (now : Z) (m : Menu) : Menu :=
  {| _id := _id m;
     name := default (name m) (set_name u);
     price := default (price m) (set_price u);
     images := default (images m) (set_images u);
     ingredients :=
       match set_ingredients u with Some s => Some s | None => ingredients m end;
     featuredImage :=
       match set_featuredImage u with Some s => Some s | None => featuredImage m end;
     description :=
       match set_description u with Some s => Some s | None => description m end;
     category := default (category m) (set_category u);
     isAvailable := default (isAvailable m) (set_isAvailable u);
     preparationTime :=
       match set_preparationTime u with Some t => Some t | None => preparationTime m end;
     nutritionalInfo :=
       match set_nutritionalInfo u with Some n => Some n | None => nutritionalInfo m end;
     allergens := default (allergens m) (set_allergens u);
     spicyLevel := default (spicyLevel m) (set_spicyLevel u);
     createdAt := createdAt m;
     updatedAt := now |}.

Fixpoint replaceFirst (id : string) (m' : Menu) (menus : list Menu)
  : list Menu :=
  match menus with
  | [] => []
  | m :: rest =>
      if sameId id m then m' :: rest else m :: replaceFirst id m' rest
  end.

(** [Menu.findByIdAndUpdate(id, updates, { new: true, runValidators:
    true })]: cast, validate, then update the first match under the
    unique index on [name]; returns the updated document, or [null]
    when no document has that identifier. *)
Definition findByIdAndUpdate (menus : list Menu) (id : string) (now : Z)
    (updates : Updates) : DbError + (list Menu * option Menu) :=
  let u := castUpdates updates in
  match validateUpdates u with
  | (_ :: _) as errors => inl (ValidationError errors)
  | [] =>
      match findById menus id with
      | None => inr (menus, None)
      | Some m =>
          let m' := applyUpdates u now m in
          if existsb (λ v, bool_decide (name v = name m')
                           && negb (sameId id v)) menus
          then inl (DuplicateKey "name")
          else inr (replaceFirst id m' menus, Some m')
      end
  end.

End MenuModel.

(* ===================================================================== *)
(** * controllers/menu-controller.js *)
(* ===================================================================== *)

Module MenuController.

(** [req.body] of [POST /] and [PUT /:id].  [price] keeps its JSON
    value, since the handlers test its type; the last three properties
    are the ones the update handler deletes. *)
Record Body : Set := mkBody {
  name : option string;
  price : option JS.value;
  description : option string;
  featuredImage : option string;
  images : option (list string);
  isAvailable : option bool;
  ingredients : option string;
  category : option string;
  preparationTime : option Q;
  nutritionalInfo : option MenuModel.NutritionalInfo;
  allergens : option (list string);
  spicyLevel : option Q;
  body_id : option JS.value;
  body_createdAt : option JS.value;
  body_updatedAt : option JS.value
}.

Record Response : Set := mkResponse {
  status : Z;
  success : bool;
  message : option string;
  errors : option (list MenuModel.Issue);
  data : option MenuModel.Menu
}.

Definition failure (status : Z) (message : string) : Response :=
  mkResponse status false (Some message) None None.

(** The calls a handler makes on the [Menu] model, in order. *)
Inductive DbCall : Set :=
| FindOne (name : string) : DbCall
| Create : DbCall
| FindById (id : string) : DbCall
| FindByIdAndUpdate (id : string) : DbCall
| FindByIdAndDelete (id : string) : DbCall.

(** A handler run: the collection afterwards, the response sent and
    the model calls made. *)
Record Handled : Set := mkHandled {
  store : list MenuModel.Menu;
  response : Response;
  calls : list DbCall
}.

(** The array literal of the create and update handlers. *)
Definition validCategories : list string :=
  ["SOUPS & SWALLOW"; "BREAD LOVERS CORNER"; "PEPPERSOUP CORNER";
   "APPETIZERS"; "DESSERT"; "BEVERAGE"; "LIGHT FOOD OPTIONS";
   "BREAKFAST MENU"; "PEPPERSOUP CORNER"; "SPECIAL"].

Definition truthyString (s : option string) : bool :=
  match s with
  | Some s => negb (bool_decide (s = ""))
  | None => false
  end.

(** [typeof price !== 'number' || price < 0]; the number when the test
    lets the price through. *)
Definition acceptedPrice (price : option JS.value) : option Q :=
  match price with
  | Some (JS.VNum q) => if Qle_bool 0 q then Some q else None
  | _ => None
  end.

Definition validationFailed (errors : list MenuModel.Issue) : Response :=
  mkResponse 400 false (Some "Validation failed") (Some errors) None.

(** The [catch] block shared by the create and update handlers. *)
Definition caught (e : MenuModel.DbError) : Response :=
  match e with
  | MenuModel.ValidationError errors => validationFailed errors
  | MenuModel.DuplicateKey _ => failure 500 "Internal server error"
  end.

(** [addItemMenu] *)
Definition addItemMenu (menus : list MenuModel.Menu) (oid : string)
    (now : Z) (body : Body) : Handled :=
  (* Validation *)
  if negb (truthyString (name body)) || negb (JS.truthy (price body))
     || negb (truthyString (category body)) then
    mkHandled menus
      (failure 400 "Please provide name, price, and category") []
  else
    let name' := default "" (name body) in
    let category' := default "" (category body) in
    (* Fixed price validation *)
    match acceptedPrice (price body) with
    | None =>
        mkHandled menus (failure 400 "Price must be a positive number") []
    | Some price' =>
        (* Validate category *)
        if negb (JS.includes validCategories category') then
          mkHandled menus
            (failure 400
               ("Category must be one of: "
                +:+ JS.join ", " validCategories)) []
        else
          match MenuModel.findOneByName menus (JS.trim name') with
          | Some alreadyExists =>
              mkHandled menus
                (failure 409 "Menu item with this name already exists")
                [FindOne (JS.trim name')]
          | None =>
              (* Create menu item data object, add optional fields *)
              let menuData :=
                {| MenuModel.data_name := JS.trim name';
                   MenuModel.data_price := price';
                   MenuModel.data_description := JS.trim <$> description body;
                   MenuModel.data_featuredImage :=
                     JS.trim <$> featuredImage body;
                   MenuModel.data_images := default [] (images body);
                   MenuModel.data_isAvailable :=
                     default true (isAvailable body);
                   MenuModel.data_ingredients := JS.trim <$> ingredients body;
                   MenuModel.data_category := category';
                   MenuModel.data_preparationTime := preparationTime body;
                   MenuModel.data_nutritionalInfo := nutritionalInfo body;
                   MenuModel.data_allergens := allergens body;
                   MenuModel.data_spicyLevel := spicyLevel body |} in
              (* Create menu item *)
              match MenuModel.create menus oid now menuData with
              | inr (menus', menu) =>
                  mkHandled menus'
                    (mkResponse 201 true (Some "Menu item created successfully")
                       None (Some menu))
                    [FindOne (JS.trim name'); Create]
              | inl err =>
                  mkHandled menus (caught err)
                    [FindOne (JS.trim name'); Create]
              end
          end
    end.

(** [/^[0-9a-fA-F]{24}$/] *)
Definition objectIdPattern : JS.regex := JS.Repeat 24 (JS.Class JS.isHex).

(** [id.match(/^[0-9a-fA-F]{24}$/)], as a truth value. *)
Definition matchesObjectId (id : string) : bool := JS.test objectIdPattern id.

(** [getSingleMenuItem] *)
Definition getSingleMenuItem (menus : list MenuModel.Menu) (id : string)
  : Handled :=
  (* Validate ObjectId *)
  if negb (matchesObjectId id) then
    mkHandled menus (failure 400 "Invalid menu item ID") []
  else
    match MenuModel.findById menus id with
    | None =>
        mkHandled menus (failure 404 "Menu item not found") [FindById id]
    | Some menu =>
        mkHandled menus
          (mkResponse 200 true None None (Some menu)) [FindById id]
    end.

(** [editSingleMenuItem] *)
Definition editSingleMenuItem (menus : list MenuModel.Menu) (id : string)
    (now : Z) (updates : Body) : Handled :=
  (* Validate ObjectId *)
  if negb (matchesObjectId id) then
    mkHandled menus (failure 400 "Invalid menu item ID") []
  (* Validate price if provided ([_id], [createdAt] and [updatedAt]
     have been deleted from the updates and are not read below) *)
  else if bool_decide (price updates ≠ None)
          && bool_decide (acceptedPrice (price updates) = None) then
    mkHandled menus (failure 400 "Price must be a positive number") []
  (* Validate category if provided *)
  else if truthyString (category updates)
          && negb (JS.includes validCategories
                     (default "" (category updates))) then
    mkHandled menus
      (failure 400
         ("Category must be one of: " +:+ JS.join ", " validCategories)) []
  else
    (* Trim string fields *)
    let cleaned :=
      {| MenuModel.set_name := JS.trim <$> name updates;
         MenuModel.set_price := acceptedPrice (price updates);
         MenuModel.set_description := JS.trim <$> description updates;
         MenuModel.set_featuredImage := JS.trim <$> featuredImage updates;
         MenuModel.set_images := images updates;
         MenuModel.set_isAvailable := isAvailable updates;
         MenuModel.set_ingredients := ingredients updates;
         MenuModel.set_category := category updates;
         MenuModel.set_preparationTime := preparationTime updates;
         MenuModel.set_nutritionalInfo := nutritionalInfo updates;
         MenuModel.set_allergens := allergens updates;
         MenuModel.set_spicyLevel := spicyLevel updates |} in
    match MenuModel.findByIdAndUpdate menus id now cleaned with
    | inl err => mkHandled menus (caught err) [FindByIdAndUpdate id]
    | inr (menus', None) =>
        mkHandled menus' (failure 404 "Menu item not found")
          [FindByIdAndUpdate id]
    | inr (menus', Some menu) =>
        mkHandled menus'
          (mkResponse 200 true (Some "Menu item updated successfully") None
             (Some menu))
          [FindByIdAndUpdate id]
    end.

(** [deleteSingleMenuItem] *)
Definition deleteSingleMenuItem (menus : list MenuModel.Menu) (id : string)
  : Handled :=
  (* Validate ObjectId *)
  if negb (matchesObjectId id) then
    mkHandled menus (failure 400 "Invalid menu item ID") []
  else
    match MenuModel.findByIdAndDelete menus id with
    | (menus', None) =>
        mkHandled menus' (failure 404 "Menu item not found")
          [FindByIdAndDelete id]
    | (menus', Some menu) =>
        mkHandled menus'
          (mkResponse 200 true (Some "Menu item deleted successfully") None
             (Some menu))
          [FindByIdAndDelete id]
    end.

(** ** The list endpoint *)

(** [req.query] of [GET /]: every parameter is a string or absent. *)
Record Query : Set := mkQuery {
  q : option string;
  query_category : option string;
  query_isAvailable : option string;
  minPrice : option string;
  maxPrice : option string;
  sortBy : option string;
  sortOrder : option string;
  page : option string;
  limit : option string;
  fields : option string;
  includeMeta : option string
}.

(** A bound of the price filter: [parseFloat] of the query text. *)
Inductive Bound : Set := parseFloat (text : string) : Bound.

(** The filter object [query]. *)
Record Filter : Set := mkFilter {
  filter_text : option string;                    (* $text.$search *)
  filter_category : option string;
  filter_isAvailable : option bool;
  filter_price : option (option Bound * option Bound)  (* $gte, $lte *)
}.

Inductive SortKey : Set :=
| Ascending : SortKey                             (* 1 *)
| Descending : SortKey                            (* -1 *)
| TextScore : SortKey.                            (* { $meta: "textScore" } *)

(** What [getAllMenu] hands to
    [Menu.find(query).sort(sort).skip(skip).limit(limitNum)] and
    [select(selectFields)]. *)
Record Listing : Set := mkListing {
  query : Filter;
  sort : list (string * SortKey);
  pageNum : JS.number;
  limitNum : JS.number;
  skip : JS.number;
  selectFields : string
}.

Definition searching (q : option string) : bool :=
  match q with
  | Some s => negb (bool_decide (s = "")) && negb (bool_decide (JS.trim s = ""))
  | None => false
  end.

Definition validSortFields : list string :=
  ["name"; "price"; "createdAt"; "updatedAt"; "category"].

Definition allowedFields : list string :=
  ["name"; "price"; "description"; "featuredImage";
   "images"; "isAvailable"; "ingredients"; "category";
   "preparationTime"; "nutritionalInfo"; "allergens"; "spicyLevel";
   "createdAt"; "updatedAt"].

(** [parseInt(x)] of a parameter whose default is the number [d]. *)
Definition parseIntOr (d : Z) (x : option string) : JS.number :=
  match x with
  | Some s => JS.parseInt s
  | None => JS.Num d
  end.

(** [getAllMenu], up to the query it issues. *)
Definition getAllMenu (params : Query) : Listing :=
  let sortBy' := default "createdAt" (sortBy params) in
  let sortOrder' := default "desc" (sortOrder params) in
  (* Build base query *)
  let query :=
    {| filter_text :=
         if searching (q params) then JS.trim <$> q params else None;
       filter_category :=
         if truthyString (query_category params)
         then (λ c, JS.trim (JS.toLowerCase c)) <$> query_category params
         else None;
       filter_isAvailable :=
         (λ s, bool_decide (s = "true")) <$> query_isAvailable params;
       filter_price :=
         if truthyString (minPrice params) || truthyString (maxPrice params)
         then Some
                (if truthyString (minPrice params)
                 then parseFloat <$> minPrice params else None,
                 if truthyString (maxPrice params)
                 then parseFloat <$> maxPrice params else None)
         else None |} in
  (* Sorting logic *)
  let sort :=
    if searching (q params) then
      [("score", TextScore); ("createdAt", Descending)]
    else
      let sortField :=
        if JS.includes validSortFields sortBy' then sortBy'
        else "createdAt" in
      let sortDirection :=
        if bool_decide (sortOrder' = "asc") then Ascending else Descending in
      [(sortField, sortDirection)] in
  (* Pagination *)
  let pageNum := JS.Math_max (JS.Num 1) (parseIntOr 1 (page params)) in
  let limitNum :=
    JS.Math_min (JS.Num 50)
      (JS.Math_max (JS.Num 1) (parseIntOr 10 (limit params))) in
  let skip := JS.mul (JS.sub pageNum (JS.Num 1)) limitNum in
  (* Field selection *)
  let selectFields :=
    if truthyString (fields params) then
      JS.join " "
        (filter (λ field, JS.includes allowedFields field = true)
           (JS.trim <$> JS.split ","%char (default "" (fields params))))
    else "" in
  mkListing query sort pageNum limitNum skip selectFields.

(** ** The pagination block of the list response *)

Record Pagination : Set := mkPagination {
  currentPage : JS.number;
  totalPages : JS.number;
  totalItems : Z;
  itemsPerPage : JS.number;
  hasNextPage : bool;
  hasPrevPage : bool
}.

(** The [pagination] object [getAllMenu] builds from its page and limit
    and from [totalCount], the result of [Menu.countDocuments(query)]. *)
Definition pagination (plan : Listing) (totalCount : Z) : Pagination :=
  let totalPages := JS.Math_ceil_div totalCount (limitNum plan) in
  {| currentPage := pageNum plan;
     totalPages := totalPages;
     totalItems := totalCount;
     itemsPerPage := limitNum plan;
     hasNextPage := JS.lt (pageNum plan) totalPages;
     hasPrevPage := JS.lt (JS.Num 1) (pageNum plan) |}.

(** ** The category and price-range endpoints *)

(** [Menu.distinct('category')]: the categories in use, each once. *)
Definition distinctCategories (menus : list MenuModel.Menu) : list string :=
  remove_dups (MenuModel.category <$> menus).

(** [getMenuCategories]: the [data] of its 200 response,
    [categories.sort()]. *)
Definition getMenuCategories (menus : list MenuModel.Menu) : list string :=
  JS.sort (distinctCategories menus).

(** The one group of [Menu.aggregate([{ $group: { _id: null, minPrice:
    { $min: "$price" }, maxPrice: { $max: "$price" }, avgPrice: { $avg:
    "$price" } } }])]; an empty collection gives no group.  The average
    is kept exact (the database and JavaScript round it to a double). *)
Definition aggregatePrices (menus : list MenuModel.Menu)
  : option (Q * Q * Q) :=
  match menus with
  | [] => None
  | m :: rest =>
      let prices := MenuModel.price <$> rest in
      Some (foldr Qmin (MenuModel.price m) prices,
            foldr Qmax (MenuModel.price m) prices,
            (foldr Qplus (MenuModel.price m) prices
             / inject_Z (Z.of_nat (length menus)))%Q)
  end.

Record PriceRange : Set := mkPriceRange {
  minPrice_floor : Z;
  maxPrice_ceil : Z;
  avgPrice : Q
}.

(** [getPriceRange]: the [data] of its 200 response. *)
Definition getPriceRange (menus : list MenuModel.Menu) : PriceRange :=
  let stats :=
    default (0%Q, 0%Q, 0%Q) (aggregatePrices menus) in
  {| minPrice_floor := Qfloor (JS.orZero stats.1.1);
     maxPrice_ceil := Qceiling (JS.orZero stats.1.2);
     avgPrice :=
       (inject_Z (JS.Math_round (JS.orZero stats.2 * inject_Z 100))
        / inject_Z 100)%Q |}.

End MenuController.

(* ===================================================================== *)
(** * routes/menu-route.js *)
(* ===================================================================== *)

Module MenuRoute.

(** The guards [authMiddleware, authorize("admin")] in front of a
    handler: a denial is the response, and the handler does not run. *)
Definition adminOnly (jwt_verify : string -> string -> Auth.Verified)
    (JWT_SECRET authHeader : option string)
    (menus : list MenuModel.Menu) (handler : MenuController.Handled)
  : MenuController.Handled :=
  match Auth.authMiddleware jwt_verify JWT_SECRET authHeader with
  | inl denied =>
      MenuController.mkHandled menus
        (MenuController.failure (Auth.status denied) (Auth.message denied)) []
  | inr user =>
      match Auth.authorize ["admin"] (Some user) with
      | Some denied =>
          MenuController.mkHandled menus
            (MenuController.failure (Auth.status denied)
               (Auth.message denied)) []
      | None => handler
      end
  end.

(** [route.get('/:id', getSingleMenuItem)] *)
Definition getById (menus : list MenuModel.Menu) (id : string)
  : MenuController.Handled :=
  MenuController.getSingleMenuItem menus id.

(** [route.post("/", authMiddleware, authorize("admin"), addItemMenu)] *)
Definition post (jwt_verify : string -> string -> Auth.Verified)
    (JWT_SECRET authHeader : option string)
    (menus : list MenuModel.Menu) (oid : string) (now : Z)
    (body : MenuController.Body) : MenuController.Handled :=
  adminOnly jwt_verify JWT_SECRET authHeader menus
    (MenuController.addItemMenu menus oid now body).

(** [route.put('/:id', authMiddleware, authorize("admin"),
    editSingleMenuItem)] *)
Definition putById (jwt_verify : string -> string -> Auth.Verified)
    (JWT_SECRET authHeader : option string)
    (menus : list MenuModel.Menu) (id : string) (now : Z)
    (body : MenuController.Body) : MenuController.Handled :=
  adminOnly jwt_verify JWT_SECRET authHeader menus
    (MenuController.editSingleMenuItem menus id now body).

(** [route.delete('/:id', authMiddleware, authorize("admin"),
    deleteSingleMenuItem)] *)
Definition deleteById (jwt_verify : string -> string -> Auth.Verified)
    (JWT_SECRET authHeader : option string)
    (menus : list MenuModel.Menu) (id : string) : MenuController.Handled :=
  adminOnly jwt_verify JWT_SECRET authHeader menus
    (MenuController.deleteSingleMenuItem menus id).

End MenuRoute.

(* ===================================================================== *)
(** * Concrete requests and operations used as test points *)
(* ===================================================================== *)

Module Samples.

(** A client address and a burst of two calls from it. *)
Definition caller : RateLimiter.Request :=
  RateLimiter.mkRequest (Some "203.0.113.7") None.

Definition burst : list (RateLimiter.Request * Z) := [(caller, 0); (caller, 10)].


Definition unavailable (k : nat) : Resilience.Attempt unit :=
  Resilience.mkAttempt 10 (inr (Resilience.mkError "unavailable" (Some 503))).

(** Stand-ins for bcryptjs: the hash keeps the password behind a fixed
    prefix and [compare] checks it. *)
Definition toyHash (password : string) (saltRounds : Z) : string :=
  "$2a$12$" +:+ password.

Definition toyCompare (password hash : string) : bool :=
  bool_decide (hash = "$2a$12$" +:+ password).

(** A registered, active user. *)
Definition ada : UserModel.User :=
  {| UserModel._id := "65f1a0000000000000000001";
     UserModel.name := "Ada";
     UserModel.email := "ada@example.com";
     UserModel.phoneNumber := "2348012345678";
     UserModel.role := "user";
     UserModel.password := "$2a$12$secret1";
     UserModel.isActive := true;
     UserModel.lastLogin := None;
     UserModel.createdAt := 5;
     UserModel.updatedAt := 5 |}.





(** A registration that asks for the admin role. *)
Definition wantsAdmin : UserController.Body :=
  UserController.mkBody (Some "Bob") (Some "bob@example.com")
    (Some "2348099999999") (Some "secret2") (Some "admin").

(** The menu item of the end-to-end scenario, and a free glass of
    water. *)
Definition jollof : MenuController.Body :=
  {| MenuController.name := Some "Jollof Rice";
     MenuController.price := Some (JS.VNum (inject_Z 2500));
     MenuController.description := None;
     MenuController.featuredImage := None;
     MenuController.images := None;
     MenuController.isAvailable := None;
     MenuController.ingredients := None;
     MenuController.category := Some "SPECIAL";
     MenuController.preparationTime := None;
     MenuController.nutritionalInfo := None;
     MenuController.allergens := None;
     MenuController.spicyLevel := None;
     MenuController.body_id := None;
     MenuController.body_createdAt := None;
     MenuController.body_updatedAt := None |}.

Definition water : MenuController.Body :=
  {| MenuController.name := Some "Water";
     MenuController.price := Some (JS.VNum (inject_Z 0));
     MenuController.description := None;
     MenuController.featuredImage := None;
     MenuController.images := None;
     MenuController.isAvailable := None;
     MenuController.ingredients := None;
     MenuController.category := Some "BEVERAGE";
     MenuController.preparationTime := None;
     MenuController.nutritionalInfo := None;
     MenuController.allergens := None;
     MenuController.spicyLevel := None;
     MenuController.body_id := None;
     MenuController.body_createdAt := None;
     MenuController.body_updatedAt := None |}.

(** An update that sets nothing but the price, to zero. *)
Definition priceToZero : MenuController.Body :=
  {| MenuController.name := None;
     MenuController.price := Some (JS.VNum (inject_Z 0));
     MenuController.description := None;
     MenuController.featuredImage := None;
     MenuController.images := None;
     MenuController.isAvailable := None;
     MenuController.ingredients := None;
     MenuController.category := None;
     MenuController.preparationTime := None;
     MenuController.nutritionalInfo := None;
     MenuController.allergens := None;
     MenuController.spicyLevel := None;
     MenuController.body_id := None;
     MenuController.body_createdAt := None;
     MenuController.body_updatedAt := None |}.

(** A stored menu item (as a document written before the schema
    lower-cased categories would look). *)
Definition stew : MenuModel.Menu :=
  {| MenuModel._id := "65f1a00000000000000000aa";
     MenuModel.name := "Goat Stew";
     MenuModel.price := inject_Z 1800;
     MenuModel.images := [];
     MenuModel.ingredients := None;
     MenuModel.featuredImage := None;
     MenuModel.description := None;
     MenuModel.category := "SPECIAL";
     MenuModel.isAvailable := true;
     MenuModel.preparationTime := None;
     MenuModel.nutritionalInfo := None;
     MenuModel.allergens := [];
     MenuModel.spicyLevel := inject_Z 0;
     MenuModel.createdAt := 3;
     MenuModel.updatedAt := 3 |}.

(** List requests: [?limit=abc], [?page=abc], and
    [?sortBy=popularity&sortOrder=asc]. *)
Definition noQuery : MenuController.Query :=
  MenuController.mkQuery None None None None None None None None None None None.

Definition limitAbc : MenuController.Query :=
  MenuController.mkQuery None None None None None None None None (Some "abc")
    None None.

Definition pageAbc : MenuController.Query :=
  MenuController.mkQuery None None None None None None None (Some "abc") None
    None None.

Definition byPopularityAsc : MenuController.Query :=
  MenuController.mkQuery None None None None None (Some "popularity")
    (Some "asc") None None None None.






(** [?page=3&limit=20] *)
Definition pageThree : MenuController.Query :=
  MenuController.mkQuery None None None None None None None (Some "3")
    (Some "20") None None.

(** A stand-in for [jwt.verify] that knows one token, Bob's. *)
Definition toyVerify (token secret : string) : Auth.Verified :=
  if bool_decide (token = "bob.token")
  then Auth.Decoded
         (Auth.mkClaims "65f1a0000000000000000002" "bob@example.com" "user")
  else Auth.Thrown "JsonWebTokenError".

End Samples.

(* ===================================================================== *)
(** * Properties of the rate limiter *)
(* ===================================================================== *)

Section RateLimiterFacts.

Import RateLimiter.

Variables maxRequests windowMs : Z.

(** A call leaves the lists of the other clients alone. *)
Lemma rateLimit_lookup_other st req now client :
  clientIP req ≠ client ->
  (rateLimit maxRequests windowMs st req now).1 !! client = st !! client.
Proof.
  intros Hne. unfold rateLimit.
  destruct (st !! clientIP req) as [times|] eqn:Hst; simpl.
  - rewrite lookup_insert_eq. simpl.
    case_match; simpl; rewrite ?lookup_insert_ne by done;
      by rewrite ?lookup_insert_ne by done.
  - rewrite Hst. simpl.
    case_match; simpl; by rewrite ?lookup_insert_ne by done.
Qed.

(** What a call does to the list of its own client. *)
Lemma rateLimit_lookup_same st req now :
  let kept := recent (clientIP req) (now - windowMs) st in
  rateLimit maxRequests windowMs st req now =
    if maxRequests <=? Z.of_nat (length kept)
    then (match st !! clientIP req with
          | Some _ => <[clientIP req := kept]> st
          | None => st
          end,
          Reject 429 "Too many requests. Please try again later."
            (ceilSeconds windowMs))
    else (<[clientIP req := kept ++ [now]]> st, Next).
Proof.
  unfold rateLimit, recent.
  destruct (st !! clientIP req) as [times|] eqn:Hst; simpl.
  - rewrite lookup_insert_eq. simpl.
    case_match; [done|]. by rewrite insert_insert_eq.
  - rewrite Hst. simpl. reflexivity.
Qed.

(** Cleaning at an earlier instant keeps whatever a later window keeps. *)
Lemma filter_window_earlier (times : list Z) (t now : Z) :
  t <= now ->
  filter (λ time, now - windowMs < time)
         (filter (λ time, t - windowMs < time) times)
  = filter (λ time, now - windowMs < time) times.
Proof.
  intros Hle. induction times as [|x times IH]; [done|].
  rewrite !filter_cons.
  destruct (decide (t - windowMs < x)) as [Hx|Hx].
  - rewrite filter_cons. destruct (decide (now - windowMs < x)); by rewrite IH.
  - rewrite IH. destruct (decide (now - windowMs < x)); [lia|done].
Qed.

(** One call, seen from the window that ends at [now]: the list of
    [client] gains the call when it is let through, and loses nothing. *)
Lemma rateLimit_recent st req t now client :
  (clientIP req = client -> t <= now) ->
  let '(st', o) := rateLimit maxRequests windowMs st req t in
  recent client (now - windowMs) st'
  = recent client (now - windowMs) st
    ++ admittedSince client (now - windowMs) [(req, t)] [o].
Proof.
  intros Hle.
  destruct (decide (clientIP req = client)) as [Heq|Hne].
  - specialize (Hle Heq). subst client.
    rewrite rateLimit_lookup_same. cbv zeta.
    destruct (maxRequests <=? _) eqn:Hfull; simpl.
    + rewrite andb_false_r. simpl. rewrite app_nil_r.
      unfold recent. destruct (st !! clientIP req) as [times|] eqn:Hst.
      * rewrite lookup_insert_eq. simpl. by apply filter_window_earlier.
      * by rewrite Hst.
    + rewrite bool_decide_true by done. simpl.
      unfold recent. rewrite lookup_insert_eq. simpl.
      rewrite filter_app, filter_window_earlier by done. f_equal.
      rewrite filter_cons, filter_nil.
      destruct (decide (now - windowMs < t)).
      * by rewrite bool_decide_true.
      * by rewrite bool_decide_false.
  - pose proof (rateLimit_lookup_other st req t client Hne) as Hother.
    destruct (rateLimit maxRequests windowMs st req t) as [st' o].
    simpl in Hother. unfold recent. rewrite Hother.
    simpl. rewrite bool_decide_false by done. simpl. by rewrite app_nil_r.
Qed.

(** The same over a whole sequence of calls. *)
Lemma run_recent calls : forall st now client,
  (forall req t, (req, t) ∈ calls -> clientIP req = client -> t <= now) ->
  let '(st', outs) := run maxRequests windowMs st calls in
  recent client (now - windowMs) st'
  = recent client (now - windowMs) st
    ++ admittedSince client (now - windowMs) calls outs.
Proof.
  induction calls as [|[req t] calls IH]; intros st now client Hle.
  - simpl. by rewrite app_nil_r.
  - simpl.
    pose proof (rateLimit_recent st req t now client) as Hstep.
    destruct (rateLimit maxRequests windowMs st req t) as [st1 o].
    specialize (IH st1 now client).
    destruct (run maxRequests windowMs st1 calls) as [st' outs].
    rewrite IH.
    + rewrite Hstep.
      * rewrite <- app_assoc. f_equal. simpl.
        destruct (bool_decide (clientIP req = client) && isNext o
                  && bool_decide (now - windowMs < t)); done.
      * intros Hc. apply (Hle req t); [left|done].
    + intros r' t' Hin. apply Hle. by right.
Qed.



(** The deployed window of 15 minutes gives a hint of 900 seconds. *)
Lemma appRateLimit_retryAfter : ceilSeconds (15 * 60 * 1000) = 900.
Proof. reflexivity. Qed.


End RateLimiterFacts.



(* ===================================================================== *)
(** * Properties of the retry loop *)
(* ===================================================================== *)

Section RetryFacts.

Import Resilience.

Context {A : Type}.
Variable fn : nat -> Attempt A.
Variables maxRetries delay : Z.






End RetryFacts.





(* ===================================================================== *)
(** * Properties of the auth handlers *)
(* ===================================================================== *)

Section AuthFacts.

Import UserController.

Variable bcrypt_hash : string -> Z -> string.
Variable bcrypt_compare : string -> string -> bool.
Variable JWT_SECRET : string.

(** [validateInput] reports nothing exactly when no field is blank. *)
Lemma validateInput_nil fields :
  validateInput fields = [] <-> forallb (λ f, negb (blank f.2)) fields = true.
Proof.
  induction fields as [|[field value] fields IH]; [done|].
  unfold validateInput in *. simpl.
  destruct (blank value); simpl; [split; discriminate|]. exact IH.
Qed.

Lemma validateInput_length fields :
  (0 <? Z.of_nat (length (validateInput fields)))
  = negb (forallb (λ f, negb (blank f.2)) fields).
Proof.
  destruct (validateInput fields) as [|e l] eqn:Hv.
  - apply validateInput_nil in Hv. by rewrite Hv.
  - destruct (forallb _ fields) eqn:Hall.
    + apply validateInput_nil in Hall. congruence.
    + simpl. apply Z.ltb_lt. lia.
Qed.

(** [registerUser] never looks at the [role] of the body. *)
Lemma registerUser_role users oid now n e ph pw role1 role2 :
  registerUser bcrypt_hash JWT_SECRET users oid now (mkBody n e ph pw role1)
  = registerUser bcrypt_hash JWT_SECRET users oid now (mkBody n e ph pw role2).
Proof. reflexivity. Qed.

(** A document that [User.create] stores is the one it was asked to
    store, up to the setters. *)
Lemma create_stores users oid now doc users' u :
  UserModel.create users oid now doc = inr (users', u) ->
  users' = users ++ [u] /\ UserModel.role u = UserModel.new_role doc.
Proof.
  unfold UserModel.create. intros H.
  destruct (UserModel.validate _); [|discriminate].
  destruct (existsb _ users); [discriminate|].
  destruct (existsb _ users); [discriminate|].
  by inversion H.
Qed.

End AuthFacts.




(** C10, at a test point: a registration that asks for the admin role
    is created with the role "user" and gets a token for that role. *)
Lemma register_role_is_user_example :
  let r := UserController.registerUser Samples.toyHash "s3cret"
             [Samples.ada] "65f1a0000000000000000002" 7 Samples.wantsAdmin in
  UserController.status r.2 = 201
  /\ UserModel.role <$> last r.1 = Some "user"
  /\ UserController.token_role <$> UserController.token r.2 = Some "user".
Proof. vm_compute. done. Qed.




(* ===================================================================== *)
(** * Properties of the regular expressions *)
(* ===================================================================== *)

Section RegexFacts.

Import JS.





Lemma test_Void s : test Void s = false.
Proof. induction s; simpl; auto. Qed.

Lemma test_Cat_Void r s : test (Cat Void r) s = false.
Proof. induction s; simpl; auto. Qed.

Lemma test_Alt s : forall r1 r2, test (Alt r1 r2) s = test r1 s || test r2 s.
Proof. induction s as [|a s IH]; intros r1 r2; simpl; auto. Qed.

Lemma test_Cat_Eps r s : test (Cat Eps r) s = test r s.
Proof.
  destruct s as [|a s]; simpl; [done|].
  by rewrite test_Alt, test_Cat_Void.
Qed.

(** [/^[p]{n}$/] accepts the strings of [n] characters, all in the
    class. *)
Lemma test_Repeat_Class p n : forall s,
  test (Repeat n (Class p)) s
  = bool_decide (String.length s = n) && every p s.
Proof.
  induction n as [|n IH]; intros [|a s]; simpl; try done.
  - by rewrite test_Void.
  - destruct (p a); simpl.
    + rewrite test_Cat_Eps, IH.
      destruct (decide (String.length s = n)) as [Heq|Hne].
      * by rewrite !bool_decide_true by (simpl; congruence).
      * by rewrite !bool_decide_false by (simpl; congruence).
    + rewrite test_Cat_Void. by rewrite andb_false_r.
Qed.

End RegexFacts.

(* ===================================================================== *)
(** * Properties of the menu handlers *)
(* ===================================================================== *)

Section MenuFacts.

Import MenuController.

(** The pattern of the three [/:id] handlers accepts the strings of 24
    hexadecimal digits and no other. *)
Lemma matchesObjectId_spec id :
  matchesObjectId id
  = bool_decide (String.length id = 24%nat) && JS.every JS.isHex id.
Proof. apply test_Repeat_Class. Qed.

(** Every category the create handler lets through fails the [enum] of
    the schema once the [lowercase] setter has run. *)
Lemma validCategories_fail_enum c :
  JS.includes validCategories c = true ->
  MenuModel.validateCategory (MenuModel.setCategory c)
  = [MenuModel.Message MenuModel.categoryMessage].
Proof.
  unfold JS.includes. intros Hin. apply bool_decide_eq_true in Hin.
  unfold validCategories in Hin.
  repeat (apply elem_of_cons in Hin as [->|Hin]; [by vm_compute|]).
  by apply elem_of_nil in Hin.
Qed.

(** So [Menu.create] throws a validation error for whatever the handler
    passes. *)
Lemma create_fails_validation menus oid now d :
  JS.includes validCategories (MenuModel.data_category d) = true ->
  exists errors,
    MenuModel.create menus oid now d
    = inl (MenuModel.ValidationError errors)
    /\ MenuModel.Message MenuModel.categoryMessage ∈ errors.
Proof.
  intros Hcat. unfold MenuModel.create.
  set (m := MenuModel.mkMenu _ _ _ _ _ _ _ _ _ _ _ _ _ _ _).
  assert (MenuModel.Message MenuModel.categoryMessage ∈ MenuModel.validate m)
    as Hin.
  { unfold MenuModel.validate. subst m. simpl MenuModel.category.
    rewrite (validCategories_fail_enum _ Hcat).
    rewrite !elem_of_app. do 5 right. left. by left. }
  destruct (MenuModel.validate m) as [|e errors] eqn:Hv.
  - by apply elem_of_nil in Hin.
  - eexists. split; [reflexivity|exact Hin].
Qed.

(** The create handler never answers 201 and never stores anything. *)
Lemma addItemMenu_never_creates menus oid now body :
  let r := addItemMenu menus oid now body in
  store r = menus /\ status (response r) <> 201.
Proof.
  unfold addItemMenu.
  destruct (_ || _); [by simpl|].
  destruct (acceptedPrice _); [|by simpl].
  destruct (JS.includes _ _) eqn:Hcat; simpl; [|done].
  destruct (MenuModel.findOneByName _ _); [by simpl|].
  match goal with
  | |- context [MenuModel.create ?a ?b ?c ?d] =>
      destruct (create_fails_validation a b c d Hcat) as (errors & -> & _)
  end.
  by simpl.
Qed.

(** A price equal to zero is answered as a missing field, whatever else
    the body holds. *)
Lemma addItemMenu_price_zero menus oid now body price' :
  price body = Some (JS.VNum price') ->
  Qeq_bool price' 0 = true ->
  addItemMenu menus oid now body
  = mkHandled menus
      (failure 400 "Please provide name, price, and category") [].
Proof.
  intros Hprice Hzero. unfold addItemMenu. rewrite Hprice. simpl.
  rewrite Hzero. simpl. by rewrite orb_true_r.
Qed.

(** The admin guards let a verified admin through to the handler. *)
Lemma adminOnly_admin jwt_verify JWT_SECRET authHeader menus handler user :
  Auth.authMiddleware jwt_verify JWT_SECRET authHeader = inr user ->
  Auth.role user = "admin" ->
  MenuRoute.adminOnly jwt_verify JWT_SECRET authHeader menus handler = handler.
Proof.
  intros Hauth Hrole. unfold MenuRoute.adminOnly. rewrite Hauth.
  unfold Auth.authorize. rewrite Hrole. reflexivity.
Qed.

(** For a verified admin [POST /] is the create handler. *)
Lemma post_as_admin jwt_verify JWT_SECRET authHeader menus oid now body user :
  Auth.authMiddleware jwt_verify JWT_SECRET authHeader = inr user ->
  Auth.role user = "admin" ->
  MenuRoute.post jwt_verify JWT_SECRET authHeader menus oid now body
  = addItemMenu menus oid now body.
Proof. intros. unfold MenuRoute.post. by apply adminOnly_admin with user. Qed.

(** Without an [Authorization] header the guards answer 401 and the
    handler does not run, whatever the [id]. *)
Lemma adminOnly_no_token jwt_verify JWT_SECRET menus handler :
  MenuRoute.adminOnly jwt_verify JWT_SECRET None menus handler
  = mkHandled menus (failure 401 "Access denied. No token provided") [].
Proof. reflexivity. Qed.

(** With numeric [page] and [limit] the pagination is the clamped one. *)
Lemma pagination_when_numeric params p l :
  parseIntOr 1 (page params) = JS.Num p ->
  parseIntOr 10 (limit params) = JS.Num l ->
  let plan := getAllMenu params in
  pageNum plan = JS.Num (Z.max 1 p)
  /\ limitNum plan = JS.Num (Z.min 50 (Z.max 1 l))
  /\ skip plan = JS.Num ((Z.max 1 p - 1) * Z.min 50 (Z.max 1 l)).
Proof.
  intros Hp Hl. unfold getAllMenu. simpl. by rewrite Hp, Hl.
Qed.

End MenuFacts.

(** The list request of the scenario filters on the lower-case
    category, which is also what the schema setter makes of "SPECIAL":
    the filter and the setter agree, the [enum] of the schema does not. *)
Lemma scenario_filter_is_lowercase :
  MenuController.filter_category
    (MenuController.query
       (MenuController.getAllMenu
          (MenuController.mkQuery None (Some "special") None (Some "1000")
             (Some "3000") None None None None None None)))
  = Some (MenuModel.setCategory "SPECIAL")
  /\ JS.includes MenuModel.categoryValues (MenuModel.setCategory "SPECIAL")
     = false.
Proof. split; reflexivity. Qed.

(** C1, first step of the scenario on the code, for every collection.
    The create request [{name: "Jollof Rice", price: 2500, category:
    "SPECIAL"}] stores nothing.  It passes the handler's category check;
    unless the name is taken (409), the schema setter turns the category
    into "special", the [enum] validator of the schema (upper-case
    values) rejects it, and the handler answers 400 "Validation failed"
    with the category message.  The later steps of the scenario have no
    item to list or to delete. *)
Theorem create_jollof_rice_rejected
    (menus : list MenuModel.Menu) (oid : string) (now : Z) :
  let r := MenuController.addItemMenu menus oid now Samples.jollof in
  MenuController.store r = menus
  /\ match MenuModel.findOneByName menus "Jollof Rice" with
     | None =>
         MenuController.response r
         = MenuController.validationFailed
             [MenuModel.Message MenuModel.categoryMessage]
         /\ MenuController.calls r
            = [MenuController.FindOne "Jollof Rice"; MenuController.Create]
     | Some _ =>
         MenuController.response r
         = MenuController.failure 409
             "Menu item with this name already exists"
     end.
Proof.
  intros r. subst r. unfold MenuController.addItemMenu. simpl.
  change (JS.trim "Jollof Rice") with "Jollof Rice".
  destruct (MenuModel.findOneByName menus "Jollof Rice") as [taken|];
    [by simpl|].
  split; [reflexivity|]. split; reflexivity.
Qed.

(** C2, at the failing input.  With [?limit=abc] the limit handed to the
    query is [NaN], not a number between 1 and 50, and so is the offset;
    with [?page=abc] the page and the offset are [NaN]. *)
Theorem pagination_not_a_number :
  MenuController.limitNum (MenuController.getAllMenu Samples.limitAbc) = JS.NaN
  /\ MenuController.skip (MenuController.getAllMenu Samples.limitAbc) = JS.NaN
  /\ MenuController.pageNum (MenuController.getAllMenu Samples.pageAbc) = JS.NaN
  /\ MenuController.skip (MenuController.getAllMenu Samples.pageAbc) = JS.NaN.
Proof. repeat split; reflexivity. Qed.

(** C3 as stated fails: with [?sortBy=popularity&sortOrder=asc] the
    list is sorted by creation time ascending. *)
Lemma sort_fallback_counterexample :
  ~ (forall params : MenuController.Query,
        MenuController.searching (MenuController.q params) = false ->
        JS.includes MenuController.validSortFields
          (default "createdAt" (MenuController.sortBy params)) = false ->
        MenuController.sort (MenuController.getAllMenu params)
        = [("createdAt", MenuController.Descending)]).
Proof.
  intros H.
  specialize (H Samples.byPopularityAsc eq_refl eq_refl).
  vm_compute in H. discriminate.
Qed.

(** C3, amended.  Without a free-text search, a [sortBy] outside the
    allow-list makes the list endpoint sort by [createdAt] alone; the
    direction is still the requested one: ascending when [sortOrder] is
    "asc", descending for every other value and when it is left out. *)
Theorem sort_fallback_keeps_direction (params : MenuController.Query) :
  MenuController.searching (MenuController.q params) = false ->
  JS.includes MenuController.validSortFields
    (default "createdAt" (MenuController.sortBy params)) = false ->
  MenuController.sort (MenuController.getAllMenu params)
  = [("createdAt",
      if bool_decide (MenuController.sortOrder params = Some "asc")
      then MenuController.Ascending else MenuController.Descending)].
Proof.
  intros Hq Hsort. unfold MenuController.getAllMenu. simpl.
  rewrite Hq, Hsort. do 2 f_equal.
  destruct (MenuController.sortOrder params) as [o|]; simpl; [|done].
  destruct (decide (o = "asc")) as [->|Hne]; [done|].
  rewrite !bool_decide_false; [done|congruence|done].
Qed.

(** C3 amended, at a test point: [?sortBy=popularity&sortOrder=asc]
    sorts by [createdAt] ascending. *)
Lemma sort_fallback_keeps_direction_witness :
  MenuController.sort (MenuController.getAllMenu Samples.byPopularityAsc)
  = [("createdAt", MenuController.Ascending)].
Proof.
  apply (sort_fallback_keeps_direction Samples.byPopularityAsc);
    reflexivity.
Defined.

(** C4, at the failing input.  A create request with a name, a valid
    category and the price 0 is answered 400 "Please provide name,
    price, and category", for every collection: the presence test
    [!price] takes the number zero for a missing price. *)
Theorem create_price_zero_rejected
    (menus : list MenuModel.Menu) (oid : string) (now : Z) :
  MenuController.addItemMenu menus oid now Samples.water
  = MenuController.mkHandled menus
      (MenuController.failure 400 "Please provide name, price, and category")
      [].
Proof. by apply addItemMenu_price_zero with (price' := inject_Z 0). Qed.

(** The update handler, for comparison, lets the price 0 through: on a
    stored document it answers 200 and the document then costs 0. *)
Lemma edit_price_zero_accepted :
  let r := MenuController.editSingleMenuItem [Samples.stew]
             "65f1a00000000000000000aa" 9 Samples.priceToZero in
  MenuController.status (MenuController.response r) = 200
  /\ MenuModel.price <$> MenuController.data (MenuController.response r)
     = Some (inject_Z 0).
Proof. vm_compute. done. Qed.

(** C9.  An [id] that is not a string of exactly 24 hexadecimal digits
    makes each of the three [/:id] handlers (get, update, delete) answer
    400 "Invalid menu item ID" at once, for every collection and every
    update body: no call on the model is made (so neither a read nor a
    mutation, and no 404), and the collection is unchanged.  The same
    holds on the routes: for [GET /:id] always, and for [PUT /:id] and
    [DELETE /:id] for every request the admin guards of the router let
    through to the handler. *)
Theorem malformed_id_rejected
    (menus : list MenuModel.Menu) (id : string) (now : Z)
    (updates : MenuController.Body) :
  bool_decide (String.length id = 24%nat) && JS.every JS.isHex id = false ->
  let invalid :=
    MenuController.mkHandled menus
      (MenuController.failure 400 "Invalid menu item ID") [] in
  MenuController.getSingleMenuItem menus id = invalid
  /\ MenuController.editSingleMenuItem menus id now updates = invalid
  /\ MenuController.deleteSingleMenuItem menus id = invalid
  /\ MenuRoute.getById menus id = invalid
  /\ (forall jwt_verify JWT_SECRET authHeader user,
        Auth.authMiddleware jwt_verify JWT_SECRET authHeader = inr user ->
        Auth.role user = "admin" ->
        MenuRoute.putById jwt_verify JWT_SECRET authHeader menus id now updates
        = invalid
        /\ MenuRoute.deleteById jwt_verify JWT_SECRET authHeader menus id
           = invalid).
Proof.
  intros Hbad invalid. rewrite <- matchesObjectId_spec in Hbad.
  assert (MenuController.getSingleMenuItem menus id = invalid) as Hget.
  { unfold MenuController.getSingleMenuItem. by rewrite Hbad. }
  assert (MenuController.editSingleMenuItem menus id now updates = invalid)
    as Hput.
  { unfold MenuController.editSingleMenuItem. by rewrite Hbad. }
  assert (MenuController.deleteSingleMenuItem menus id = invalid) as Hdel.
  { unfold MenuController.deleteSingleMenuItem. by rewrite Hbad. }
  repeat split; try done.
  - unfold MenuRoute.putById. by rewrite (adminOnly_admin _ _ _ _ _ user).
  - unfold MenuRoute.deleteById. by rewrite (adminOnly_admin _ _ _ _ _ user).
Qed.

(** C9, at test points: a 24-character id with a letter outside the
    hexadecimal digits, against a collection that holds a document. *)
Lemma malformed_id_rejected_witness :
  MenuController.deleteSingleMenuItem [Samples.stew]
    "65f1a00000000000000000zz"
  = MenuController.mkHandled [Samples.stew]
      (MenuController.failure 400 "Invalid menu item ID") [].
Proof.
  refine (proj1 (proj2 (proj2 (malformed_id_rejected [Samples.stew]
                                 "65f1a00000000000000000zz" 9
                                 Samples.priceToZero _)))).
  reflexivity.
Defined.


(* ===================================================================== *)
(** * Further properties of the rate limiter *)
(* ===================================================================== *)

Section RateLimiterBounds.

Import RateLimiter.

Variables maxRequests windowMs : Z.

Lemma length_filter_le (P : Z -> Prop) `{forall x, Decision (P x)}
    (l : list Z) :
  (length (filter P l) <= length l)%nat.
Proof.
  induction l as [|x l IH]; [done|].
  rewrite filter_cons. destruct (decide (P x)); simpl; lia.
Qed.

(** One call keeps every list within the limit. *)
Lemma rateLimit_bounded st req now :
  0 <= maxRequests ->
  bounded maxRequests st ->
  bounded maxRequests (rateLimit maxRequests windowMs st req now).1.
Proof.
  intros Hpos Hst client times.
  destruct (decide (clientIP req = client)) as [<-|Hne].
  - rewrite rateLimit_lookup_same. cbv zeta.
    assert (Z.of_nat (length (recent (clientIP req) (now - windowMs) st))
            <= Z.of_nat (length (default [] (st !! clientIP req)))) as Hkept.
    { unfold recent. pose proof (length_filter_le
        (λ time, now - windowMs < time) (default [] (st !! clientIP req))).
      lia. }
    destruct (Z.leb_spec maxRequests
                (Z.of_nat (length (recent (clientIP req) (now - windowMs) st))))
      as [Hfull|Hroom]; simpl.
    + destruct (st !! clientIP req) as [old|] eqn:Hold.
      * rewrite lookup_insert_eq. intros [= <-].
        specialize (Hst _ _ Hold). simpl in Hkept. lia.
      * rewrite Hold. discriminate.
    + rewrite lookup_insert_eq. intros [= <-].
      rewrite length_app. simpl. lia.
  - rewrite rateLimit_lookup_other by done. apply Hst.
Qed.

Lemma run_bounded calls : forall st,
  0 <= maxRequests ->
  bounded maxRequests st ->
  bounded maxRequests (run maxRequests windowMs st calls).1.
Proof.
  induction calls as [|[req t] calls IH]; intros st Hpos Hst; [done|].
  simpl.
  pose proof (rateLimit_bounded st req t Hpos Hst) as Hstep.
  destruct (rateLimit maxRequests windowMs st req t) as [st1 o].
  specialize (IH st1 Hpos Hstep).
  destruct (run maxRequests windowMs st1 calls) as [st' outs]. exact IH.
Qed.

(** A call never removes a client from the map. *)
Lemma rateLimit_dom st req now :
  dom st ⊆ dom (rateLimit maxRequests windowMs st req now).1.
Proof.
  intros client Hin. apply elem_of_dom in Hin. apply elem_of_dom.
  destruct (decide (clientIP req = client)) as [<-|Hne].
  - rewrite rateLimit_lookup_same. cbv zeta.
    destruct (maxRequests <=? _); simpl.
    + destruct (st !! clientIP req) eqn:Hst; [|by destruct Hin].
      by rewrite lookup_insert_eq.
    + by rewrite lookup_insert_eq.
  - by rewrite rateLimit_lookup_other.
Qed.

Lemma run_dom calls : forall st,
  dom st ⊆ dom (run maxRequests windowMs st calls).1.
Proof.
  induction calls as [|[req t] calls IH]; intros st; [done|].
  simpl.
  pose proof (rateLimit_dom st req t) as Hstep.
  destruct (rateLimit maxRequests windowMs st req t) as [st1 o].
  specialize (IH st1).
  destruct (run maxRequests windowMs st1 calls) as [st' outs].
  simpl in *. set_solver.
Qed.

End RateLimiterBounds.

(** X1.  The guarantee of the limiter.  Start from a map in which no
    client has more than [maxRequests] timestamps (the empty map of a
    fresh process, say), and serve any sequence of calls.  Then no
    client ever has more than [maxRequests] timestamps on record, and
    for every client and every instant [now] not earlier than that
    client's calls, at most [maxRequests] of its calls inside the
    window ending at [now] were let through. *)
Theorem rate_limit_never_exceeds
    (maxRequests windowMs : Z) (st0 : gmap (option string) (list Z))
    (calls : list (RateLimiter.Request * Z))
    (client : option string) (now : Z) :
  0 <= maxRequests ->
  RateLimiter.bounded maxRequests st0 ->
  (forall r t, (r, t) ∈ calls -> RateLimiter.clientIP r = client -> t <= now) ->
  let served := RateLimiter.run maxRequests windowMs st0 calls in
  RateLimiter.bounded maxRequests served.1
  /\ Z.of_nat (length (RateLimiter.admittedSince client (now - windowMs)
                         calls served.2))
     <= maxRequests.
Proof.
  intros Hpos Hst0 Hclock served.
  pose proof (run_bounded maxRequests windowMs calls st0 Hpos Hst0) as Hb.
  pose proof (run_recent maxRequests windowMs calls st0 now client Hclock)
    as Hrun.
  fold served in Hb, Hrun. destruct served as [st outs]. simpl in *.
  split; [exact Hb|].
  assert (Z.of_nat (length (RateLimiter.recent client (now - windowMs) st))
          <= maxRequests) as Hle.
  { unfold RateLimiter.recent.
    pose proof (length_filter_le (λ time, now - windowMs < time)
                  (default [] (st !! client))) as Hf.
    destruct (st !! client) as [times|] eqn:Hl; simpl in *.
    - specialize (Hb _ _ Hl). lia.
    - lia. }
  rewrite Hrun, length_app in Hle. lia.
Qed.

(** X1, at a test point: with a limit of 1 and a window of one second,
    of the two calls at 0 and 10 ms at most one was let through. *)
Lemma rate_limit_never_exceeds_witness :
  Z.of_nat
    (length (RateLimiter.admittedSince (RateLimiter.clientIP Samples.caller)
               (20 - 1000) Samples.burst
               (RateLimiter.run 1 1000 ∅ Samples.burst).2))
  <= 1.
Proof.
  refine (proj2 (rate_limit_never_exceeds 1 1000 ∅ Samples.burst
                   (RateLimiter.clientIP Samples.caller) 20 _ _ _)).
  - lia.
  - intros c times Hc. rewrite lookup_empty in Hc. discriminate.
  - intros r t Hin _. unfold Samples.burst in Hin.
    apply elem_of_cons in Hin as [Hin|Hin]; [inversion Hin; lia|].
    apply elem_of_cons in Hin as [Hin|Hin]; [inversion Hin; lia|].
    by apply elem_of_nil in Hin.
Defined.

(** X2.  The limiter never forgets a client: whatever calls are served,
    every key of the map stays a key, so the map only grows. *)
Theorem rate_limit_never_evicts
    (maxRequests windowMs : Z) (st0 : gmap (option string) (list Z))
    (calls : list (RateLimiter.Request * Z)) :
  dom st0 ⊆ dom (RateLimiter.run maxRequests windowMs st0 calls).1
  /\ (size st0 <= size (RateLimiter.run maxRequests windowMs st0 calls).1)%nat.
Proof.
  pose proof (run_dom maxRequests windowMs calls st0) as Hdom.
  split; [exact Hdom|].
  rewrite <- !size_dom. by apply subseteq_size.
Qed.

(** X3.  What a call leaves on record for its caller: the call itself,
    if it was let through, after the earlier timestamps that are less
    than [windowMs] old, in their order; everything older is dropped.
    A caller that was let through is always on record afterwards. *)
Theorem rate_limit_cleans_caller
    (maxRequests windowMs : Z) (st : gmap (option string) (list Z))
    (req : RateLimiter.Request) (now : Z) :
  let client := RateLimiter.clientIP req in
  let r := RateLimiter.rateLimit maxRequests windowMs st req now in
  let kept :=
    filter (λ time, now - windowMs < time) (default [] (st !! client)) in
  default [] (r.1 !! client)
  = kept ++ (if RateLimiter.isNext r.2 then [now] else [])
  /\ Forall (λ time, now - windowMs < time \/ time = now)
       (default [] (r.1 !! client))
  /\ (RateLimiter.isNext r.2 = true -> is_Some (r.1 !! client)).
Proof.
  intros client r kept.
  assert (default [] (r.1 !! client)
          = kept ++ (if RateLimiter.isNext r.2 then [now] else [])) as Heq.
  { subst r. rewrite rateLimit_lookup_same. cbv zeta.
    fold client. unfold RateLimiter.recent. subst kept.
    destruct (maxRequests <=? _); simpl.
    - rewrite app_nil_r. destruct (st !! client) as [times|] eqn:Hst.
      + by rewrite lookup_insert_eq.
      + by rewrite Hst.
    - by rewrite lookup_insert_eq. }
  split; [exact Heq|]. split.
  - rewrite Heq. apply Forall_app. split.
    + subst kept. apply Forall_forall. intros t Ht.
      apply list_elem_of_filter in Ht as [Ht _]. by left.
    + destruct (RateLimiter.isNext r.2); [|constructor].
      constructor; [by right|constructor].
  - subst r. rewrite rateLimit_lookup_same. cbv zeta. fold client.
    destruct (maxRequests <=? _); simpl; [discriminate|].
    intros _. by rewrite lookup_insert_eq.
Qed.

(** X3, at a test point: a third call one second after two calls drops
    them and records itself. *)
Lemma rate_limit_cleans_caller_witness :
  is_Some
    ((RateLimiter.rateLimit 2 1000
        (RateLimiter.run 2 1000 ∅ Samples.burst).1 Samples.caller 1010).1
       !! RateLimiter.clientIP Samples.caller).
Proof.
  refine (proj2 (proj2 (rate_limit_cleans_caller 2 1000
                          (RateLimiter.run 2 1000 ∅ Samples.burst).1
                          Samples.caller 1010)) _).
  vm_compute. reflexivity.
Defined.

(* ===================================================================== *)
(** * Further properties of the retry loop *)
(* ===================================================================== *)

Section RetryBounds.

Import Resilience.

Context {A : Type}.
Variable fn : nat -> Attempt A.
Variables maxRetries delay : Z.


(** The loop makes at most [fuel] invocations, and when it runs to the
    configured count every delay is followed by another invocation. *)
Lemma retryLoop_counts (fuel : nat) : forall (i : nat) (last : option Error),
  let r := retryLoop fn maxRetries delay i fuel last in
  (invocations (trace r) <= fuel)%nat
  /\ (Z.of_nat (i + fuel) = maxRetries ->
      (length (sleeps (trace r)) <= invocations (trace r) - 1)%nat).
Proof.
  induction fuel as [|fuel IH]; intros i last; simpl; [split; [lia|done]|].
  destruct (outcome (fn i)) as [v|error]; simpl; [split; [lia|done]|].
  destruct (isClientError error); simpl; [split; [lia|done]|].
  destruct (IH (S i) (Some error)) as [Hinv Hsl]. cbv zeta in Hinv, Hsl.
  destruct (Z.ltb_spec (Z.of_nat i) (maxRetries - 1)) as [Hlt|Hge]; simpl.
  - split; [lia|]. intros Hm.
    specialize (Hsl ltac:(lia)).
    destruct fuel as [|fuel]; [lia|].
    assert (1 <= invocations
                   (trace (retryLoop fn maxRetries delay (S i) (S fuel)
                             (Some error))))%nat; [|lia].
    simpl. destruct (outcome (fn (S i))) as [v|e1]; simpl; [lia|].
    destruct (isClientError e1); simpl; lia.
  - split; [lia|]. intros Hm.
    destruct fuel as [|fuel]; [simpl; lia|lia].
Qed.

(** The delays slept from counter [i] on add up to less than the next
    one would be. *)
Lemma retryLoop_slept (fuel : nat) : forall (i : nat) (last : option Error),
  0 <= delay ->
  slept (trace (retryLoop fn maxRetries delay i fuel last))
  + delay * 2 ^ Z.of_nat i
  <= delay * 2 ^ Z.max (maxRetries - 1) (Z.of_nat i).
Proof.
  induction fuel as [|fuel IH]; intros i last Hd.
  - simpl. unfold slept. simpl.
    assert (2 ^ Z.of_nat i <= 2 ^ Z.max (maxRetries - 1) (Z.of_nat i))
      by (apply Z.pow_le_mono_r; lia).
    nia.
  - assert (2 ^ Z.of_nat i <= 2 ^ Z.max (maxRetries - 1) (Z.of_nat i)) as Hmono
      by (apply Z.pow_le_mono_r; lia).
    simpl. destruct (outcome (fn i)) as [v|error]; simpl;
      [unfold slept; simpl; nia|].
    destruct (isClientError error); simpl; [unfold slept; simpl; nia|].
    specialize (IH (S i) (Some error) Hd).
    destruct (Z.ltb_spec (Z.of_nat i) (maxRetries - 1)) as [Hlt|Hge].
    + unfold slept in *. simpl.
      replace (Z.max (maxRetries - 1) (Z.of_nat (S i)))
        with (Z.max (maxRetries - 1) (Z.of_nat i)) in IH by lia.
      replace (Z.of_nat (S i)) with (Z.of_nat i + 1) in IH by lia.
      rewrite Z.pow_add_r in IH by lia. lia.
    + unfold slept in *. simpl.
      assert (slept (trace (retryLoop fn maxRetries delay (S i) fuel
                              (Some error))) <= 0) as Hzero.
      { unfold slept.
        replace (Z.max (maxRetries - 1) (Z.of_nat (S i)))
          with (Z.of_nat (S i)) in IH by lia. lia. }
      unfold slept in Hzero. nia.
Qed.


End RetryBounds.

(** X4.  Bounds of [withRetry], for every operation: it is invoked at
    most [maxRetries] times, every backoff delay is followed by another
    invocation (nothing is slept after the final attempt), and for a
    non-negative base delay the delays add up to at most
    [delay * (2 ^ (maxRetries - 1) - 1)] milliseconds. *)
Theorem withRetry_bounds {A : Type} (fn : nat -> Resilience.Attempt A)
    (maxRetries delay : option Z) :
  let m := default 3 maxRetries in
  let d := default 1000 delay in
  let t := Resilience.trace (Resilience.withRetry fn maxRetries delay) in
  (Resilience.invocations t <= Z.to_nat m)%nat
  /\ (0 <= m ->
      (length (Resilience.sleeps t) <= Resilience.invocations t - 1)%nat)
  /\ (0 <= d -> 1 <= m -> Resilience.slept t <= d * (2 ^ (m - 1) - 1)).
Proof.
  intros m d t. subst t. unfold Resilience.withRetry. fold m d.
  destruct (retryLoop_counts fn m d (Z.to_nat m) 0 None) as [Hinv Hsl].
  cbv zeta in Hinv, Hsl. split; [exact Hinv|]. split.
  - intros Hm. apply Hsl. lia.
  - intros Hd Hm.
    pose proof (retryLoop_slept fn m d (Z.to_nat m) 0 None Hd) as Hs.
    simpl Z.of_nat in Hs. rewrite Z.max_l in Hs by lia.
    change (2 ^ 0) with 1 in Hs. lia.
Qed.

(** X4, at a test point: under [withRetry(fn, 4, 100)] an operation
    that always fails with 503 sleeps 700 ms at most. *)
Lemma withRetry_bounds_witness :
  Resilience.slept
    (Resilience.trace
       (Resilience.withRetry Samples.unavailable (Some 4) (Some 100)))
  <= 700.
Proof.
  refine (proj2 (proj2 (withRetry_bounds Samples.unavailable
                          (Some 4) (Some 100))) _ _); simpl; lia.
Defined.





(** X7.  [dbOperationWithTimeout] with its default timeout never times
    out when each invocation of the operation takes less than 9750 ms:
    two attempts and the 500 ms pause stay under 20000 ms, so the caller
    gets what the retried operation gives. *)
Theorem dbOperationWithTimeout_in_time {A : Type}
    (fn : nat -> Resilience.Attempt A) (timerFirst : bool) :
  (forall k, Resilience.duration (fn k) < 9750) ->
  Resilience.dbOperationWithTimeout timerFirst fn None
  = Resilience.result (Resilience.withRetry fn (Some 2) (Some 500)).
Proof.
  intros Hfast.
  unfold Resilience.dbOperationWithTimeout, Resilience.withTimeout.
  simpl default.
  assert (Resilience.elapsed
            (Resilience.trace (Resilience.withRetry fn (Some 2) (Some 500)))
          < 20000) as Hin.
  { unfold Resilience.withRetry. simpl.
    pose proof (Hfast 0%nat). pose proof (Hfast 1%nat).
    destruct (Resilience.outcome (fn 0%nat)) as [v|e0]; simpl; [lia|].
    destruct (Resilience.isClientError e0); simpl; [lia|].
    destruct (Resilience.outcome (fn 1%nat)) as [v|e1]; simpl; [lia|].
    destruct (Resilience.isClientError e1); simpl; lia. }
  by rewrite (proj2 (Z.ltb_lt _ _) Hin).
Qed.

(** X7, at a test point: an operation that fails with 503 after 10 ms
    each time surfaces its own failure, not a timeout. *)
Lemma dbOperationWithTimeout_in_time_witness :
  Resilience.dbOperationWithTimeout true Samples.unavailable None
  = Resilience.Rejected (Some (Resilience.mkError "unavailable" (Some 503))).
Proof.
  refine (dbOperationWithTimeout_in_time Samples.unavailable true _).
  intros k. simpl. lia.
Defined.

(* ===================================================================== *)
(** * Further properties of the guards *)
(* ===================================================================== *)

(** X8.  The admin guard of the menu routes.  For every request, either
    the token verifies to claims whose role is "admin" and the route
    behaves as its handler, or the handler does not run: the answer is a
    failure with status 401, 403 or 500, no call is made on the model
    and the collection is unchanged. *)
Theorem admin_guard_gates_handler
    (jwt_verify : string -> string -> Auth.Verified)
    (JWT_SECRET authHeader : option string)
    (menus : list MenuModel.Menu) (handler : MenuController.Handled) :
  let r := MenuRoute.adminOnly jwt_verify JWT_SECRET authHeader menus handler in
  (r = handler
   /\ exists user,
        Auth.authMiddleware jwt_verify JWT_SECRET authHeader = inr user
        /\ Auth.role user = "admin")
  \/ (MenuController.store r = menus
      /\ MenuController.calls r = []
      /\ MenuController.success (MenuController.response r) = false
      /\ MenuController.status (MenuController.response r) ∈ [401; 403; 500]).
Proof.
  intros r. subst r. unfold MenuRoute.adminOnly.
  destruct (Auth.authMiddleware jwt_verify JWT_SECRET authHeader)
    as [denied|user] eqn:Hauth.
  - right. simpl. repeat split.
    unfold Auth.authMiddleware in Hauth.
    destruct (negb (Auth.present authHeader));
      [injection Hauth as <-; simpl; set_solver|].
    destruct (negb (Auth.present JWT_SECRET));
      [injection Hauth as <-; simpl; set_solver|].
    destruct (jwt_verify _ _) as [u|name]; [discriminate|].
    destruct (bool_decide (name = "TokenExpiredError"));
      [injection Hauth as <-; simpl; set_solver|].
    destruct (bool_decide (name = "JsonWebTokenError"));
      [injection Hauth as <-; simpl; set_solver|].
    destruct (bool_decide (name = "NotBeforeError"));
      injection Hauth as <-; simpl; set_solver.
  - unfold Auth.authorize. unfold JS.includes.
    destruct (decide (Auth.role user = "admin")) as [Hrole|Hrole].
    + left. rewrite bool_decide_true by (rewrite Hrole; set_solver).
      simpl. split; [done|]. by exists user.
    + right. rewrite bool_decide_false.
      * simpl. repeat split. set_solver.
      * intros Hin. apply list_elem_of_singleton in Hin. done.
Qed.

(** X9.  The "Bearer " prefix of the [Authorization] header is optional:
    a header that is just the token is treated as the same token with
    the prefix, for every token that is not empty and does not itself
    start with "Bearer ". *)
Theorem bearer_prefix_is_optional
    (jwt_verify : string -> string -> Auth.Verified)
    (JWT_SECRET : option string) (token : string) :
  token <> "" ->
  JS.startsWith "Bearer " token = false ->
  Auth.authMiddleware jwt_verify JWT_SECRET (Some token)
  = Auth.authMiddleware jwt_verify JWT_SECRET (Some ("Bearer " +:+ token)).
Proof.
  intros Hne Hbare. unfold Auth.authMiddleware. simpl Auth.present.
  rewrite bool_decide_false by done. simpl negb. simpl default.
  rewrite Hbare.
  change (JS.startsWith "Bearer " ("Bearer " +:+ token)) with true.
  change (JS.slice 7 ("Bearer " +:+ token)) with token.
  reflexivity.
Qed.

(** X9, at a test point: the header "abc.def.ghi" and the header
    "Bearer abc.def.ghi" get the same treatment. *)
Lemma bearer_prefix_is_optional_witness :
  Auth.authMiddleware (λ _ _, Auth.Thrown "JsonWebTokenError") (Some "k")
    (Some "abc.def.ghi")
  = Auth.authMiddleware (λ _ _, Auth.Thrown "JsonWebTokenError") (Some "k")
      (Some "Bearer abc.def.ghi").
Proof.
  apply (bearer_prefix_is_optional _ (Some "k") "abc.def.ghi");
    [discriminate|reflexivity].
Defined.

(* ===================================================================== *)
(** * Further properties of the auth handlers *)
(* ===================================================================== *)

Section AccountFacts.

Import UserController.

Variable bcrypt_hash : string -> Z -> string.
Variable bcrypt_compare : string -> string -> bool.
Variable JWT_SECRET : string.

Lemma find_snoc {T} (f : T -> bool) (l : list T) (x : T) :
  existsb f l = false -> f x = true -> find f (l ++ [x]) = Some x.
Proof.
  intros Hl Hx. induction l as [|y l IH]; simpl in *; [by rewrite Hx|].
  apply orb_false_iff in Hl as [Hy Hl]. rewrite Hy. by apply IH.
Qed.

Lemma existsb_false_not_in {T U} `{EqDecision U} (g : T -> U) (l : list T) y :
  existsb (λ v, bool_decide (g v = y)) l = false -> y ∉ g <$> l.
Proof.
  induction l as [|x l IH]; simpl; intros He Hin; [by apply elem_of_nil in Hin|].
  apply orb_false_iff in He as [Hx Hl].
  apply bool_decide_eq_false in Hx.
  apply elem_of_cons in Hin as [->|Hin]; [done|]. by apply IH.
Qed.

(** What a successful [User.create] has checked and stored. *)
Lemma create_inr users oid now doc users' u :
  UserModel.create users oid now doc = inr (users', u) ->
  users' = users ++ [u]
  /\ u = {| UserModel._id := oid;
            UserModel.name := UserModel.setName (UserModel.new_name doc);
            UserModel.email := UserModel.setEmail (UserModel.new_email doc);
            UserModel.phoneNumber :=
              UserModel.setPhoneNumber (UserModel.new_phoneNumber doc);
            UserModel.role := UserModel.new_role doc;
            UserModel.password := UserModel.new_password doc;
            UserModel.isActive := true;
            UserModel.lastLogin := None;
            UserModel.createdAt := now;
            UserModel.updatedAt := now |}
  /\ UserModel.validate u = []
  /\ existsb (λ v, bool_decide (UserModel.email v = UserModel.email u)) users
     = false
  /\ existsb (λ v, bool_decide (UserModel.phoneNumber v
                                = UserModel.phoneNumber u)) users
     = false.
Proof.
  unfold UserModel.create. intros H.
  destruct (UserModel.validate _) eqn:Hv; [|discriminate].
  match type of H with
  | (if ?b then _ else _) = _ => destruct b eqn:He; [discriminate|]
  end.
  match type of H with
  | (if ?b then _ else _) = _ => destruct b eqn:Hp; [discriminate|]
  end.
  inversion H; subst. repeat split; assumption.
Qed.

(** An insert keeps emails and phone numbers pairwise distinct. *)
Lemma create_unique users oid now doc users' u :
  NoDup (UserModel.email <$> users) ->
  NoDup (UserModel.phoneNumber <$> users) ->
  UserModel.create users oid now doc = inr (users', u) ->
  NoDup (UserModel.email <$> users')
  /\ NoDup (UserModel.phoneNumber <$> users').
Proof.
  intros He Hp Hc. apply create_inr in Hc as (-> & _ & _ & Hne & Hnp).
  rewrite !fmap_app. simpl. split; apply NoDup_app.
  - split; [done|]. split; [|apply NoDup_singleton].
    intros x Hx Hin. apply list_elem_of_singleton in Hin as ->.
    by apply existsb_false_not_in in Hne.
  - split; [done|]. split; [|apply NoDup_singleton].
    intros x Hx Hin. apply list_elem_of_singleton in Hin as ->.
    by apply existsb_false_not_in in Hnp.
Qed.

(** [findByIdAndUpdate(id, { lastLogin })] changes nothing but
    [lastLogin] and [updatedAt]. *)
Lemma updateLastLogin_keeps {T} (g : UserModel.User -> T) users id now :
  (forall u t1 t2,
      g (UserModel.mkUser (UserModel._id u) (UserModel.name u)
           (UserModel.email u) (UserModel.phoneNumber u) (UserModel.role u)
           (UserModel.password u) (UserModel.isActive u) t1
           (UserModel.createdAt u) t2) = g u) ->
  g <$> UserModel.updateLastLogin users id now = g <$> users.
Proof.
  intros Hg. induction users as [|u users IH]; [done|].
  simpl UserModel.updateLastLogin.
  destruct (bool_decide (UserModel._id u = id)); rewrite !fmap_cons.
  - by rewrite Hg.
  - by rewrite IH.
Qed.

(** The store after [registerUser] or [createAdmin]: the same, or one
    more document, which [User.create] accepted. *)
Lemma registerUser_store users oid now body :
  let r := registerUser bcrypt_hash JWT_SECRET users oid now body in
  r.1 = users
  \/ exists doc u, UserModel.create users oid now doc = inr (r.1, u).
Proof.
  unfold registerUser.
  destruct (0 <? _); [by left|].
  destruct (UserModel.findOneByEmailOrPhone _ _ _); [by left|].
  destruct (_ <? 6); [by left|].
  destruct (UserModel.create _ _ _ _) as [err|[users' u]] eqn:Hc; [by left|].
  right. eauto.
Qed.

Lemma createAdmin_store users oid now body :
  let r := createAdmin bcrypt_hash users oid now body in
  r.1 = users
  \/ exists doc u, UserModel.create users oid now doc = inr (r.1, u).
Proof.
  unfold createAdmin.
  destruct (0 <? _); [by left|].
  destruct (UserModel.findOneByEmailOrPhone _ _ _); [by left|].
  destruct (_ <? 6); [by left|].
  destruct (UserModel.create _ _ _ _) as [err|[users' u]] eqn:Hc; [by left|].
  right. eauto.
Qed.

Lemma login_store users now body :
  let r := login bcrypt_compare JWT_SECRET users now body in
  r.1 = users
  \/ exists id, r.1 = UserModel.updateLastLogin users id now.
Proof.
  unfold login.
  destruct (0 <? _); [by left|].
  destruct (UserModel.findOneByEmail _ _); [|by left].
  destruct (negb _); [by left|].
  destruct (negb _); [by left|].
  right. eauto.
Qed.

End AccountFacts.

(** [findByIdAndUpdate(id, { lastLogin })] stamps a document with that
    identifier, when there is one. *)
Lemma updateLastLogin_stamps users (u : UserModel.User) now :
  u ∈ users ->
  exists account,
    account ∈ UserModel.updateLastLogin users (UserModel._id u) now
    /\ UserModel._id account = UserModel._id u
    /\ UserModel.lastLogin account = Some now.
Proof.
  induction users as [|v users IH]; intros Hin;
    [by apply elem_of_nil in Hin|].
  simpl. destruct (decide (UserModel._id v = UserModel._id u)) as [Heq|Hne].
  - rewrite bool_decide_true by done. eexists. split; [by left|]. by simpl.
  - rewrite bool_decide_false by done.
    apply elem_of_cons in Hin as [->|Hin]; [done|].
    destruct (IH Hin) as (a & Ha & Hid & Hl).
    exists a. split; [by right|done].
Qed.

(** What a 201 of [registerUser] tells. *)
Lemma registerUser_created
    (bcrypt_hash : string -> Z -> string) (JWT_SECRET : string)
    (users : list UserModel.User) (oid : string) (now : Z)
    (body : UserController.Body) :
  let r := UserController.registerUser bcrypt_hash JWT_SECRET users oid now
             body in
  UserController.status r.2 = 201 ->
  UserController.complete body = true
  /\ exists u,
       UserModel.create users oid now
         {| UserModel.new_name :=
              JS.trim (default "" (UserController.name body));
            UserModel.new_email :=
              JS.toLowerCase (JS.trim (default "" (UserController.email body)));
            UserModel.new_phoneNumber :=
              JS.trim (default "" (UserController.phoneNumber body));
            UserModel.new_password :=
              bcrypt_hash (default "" (UserController.password body)) 12;
            UserModel.new_role := "user" |}
       = inr (r.1, u)
       /\ UserController.token r.2
          = Some (UserController.generateToken JWT_SECRET u).
Proof.
  unfold UserController.registerUser, UserController.complete.
  rewrite validateInput_length. simpl forallb.
  rewrite andb_true_r, !andb_assoc.
  destruct (_ && negb (UserController.blank (UserController.password body)));
    simpl; [|discriminate].
  destruct (UserModel.findOneByEmailOrPhone _ _ _); [discriminate|].
  destruct (_ <? 6); [discriminate|].
  destruct (UserModel.create _ _ _ _) as [err|[users' u]] eqn:Hc;
    [discriminate|].
  simpl. intros _. split; [done|]. by exists u.
Qed.

(** X10.  Register, then log in.  After a registration that was answered
    201, a login with the same email and password is answered 200, for
    every hashing function whose [compare] accepts the password against
    its own hash: the token names the new account and the role "user",
    and the login is stamped on the account. *)
Theorem register_then_login
    (bcrypt_hash : string -> Z -> string)
    (bcrypt_compare : string -> string -> bool) (JWT_SECRET : string)
    (users : list UserModel.User) (oid : string) (now later : Z)
    (body credentials : UserController.Body) (email password : string) :
  UserController.email body = Some email ->
  UserController.password body = Some password ->
  UserController.email credentials = Some email ->
  UserController.password credentials = Some password ->
  bcrypt_compare password (bcrypt_hash password 12) = true ->
  let registered :=
    UserController.registerUser bcrypt_hash JWT_SECRET users oid now body in
  UserController.status registered.2 = 201 ->
  let logged :=
    UserController.login bcrypt_compare JWT_SECRET registered.1 later
      credentials in
  UserController.status logged.2 = 200
  /\ UserController.userId <$> UserController.token logged.2 = Some oid
  /\ UserController.token_role <$> UserController.token logged.2 = Some "user"
  /\ exists account,
       account ∈ logged.1
       /\ UserModel._id account = oid
       /\ UserModel.lastLogin account = Some later.
Proof.
  intros He Hp Hce Hcp Hcmp registered Hok logged.
  destruct (registerUser_created bcrypt_hash JWT_SECRET users oid now body Hok)
    as (Hcomplete & u & Hcreate & _).
  fold registered in Hcreate.
  apply create_inr in Hcreate as (Hstore & Hu & _ & Hfresh & _).
  rewrite He, Hp in Hu. simpl in Hu.
  unfold UserController.complete in Hcomplete.
  rewrite He, Hp in Hcomplete.
  apply andb_true_iff in Hcomplete as [Hcomplete Hbp].
  apply andb_true_iff in Hcomplete as [Hcomplete _].
  apply andb_true_iff in Hcomplete as [_ Hbe].
  apply negb_true_iff in Hbe, Hbp.
  assert (UserModel.findOneByEmail registered.1 (JS.toLowerCase (JS.trim email))
          = Some u) as Hfind.
  { rewrite Hstore. unfold UserModel.findOneByEmail. apply find_snoc.
    - rewrite Hu in Hfresh. exact Hfresh.
    - rewrite Hu. simpl. by apply bool_decide_eq_true. }
  subst logged. unfold UserController.login.
  rewrite validateInput_length. simpl forallb.
  rewrite Hce, Hcp, Hbe, Hbp. simpl.
  rewrite Hfind.
  assert (UserModel.isActive u = true) as -> by (by rewrite Hu).
  assert (UserModel.password u = bcrypt_hash password 12) as ->
    by (by rewrite Hu).
  rewrite Hcmp. simpl.
  repeat split.
  - by rewrite Hu.
  - by rewrite Hu.
  - replace oid with (UserModel._id u) by (by rewrite Hu).
    apply updateLastLogin_stamps. rewrite Hstore.
    apply elem_of_app. right. by apply list_elem_of_singleton.
Qed.

(** X10, at a test point: Bob registers next to Ada and logs in. *)
Lemma register_then_login_witness :
  UserController.status
    (UserController.login Samples.toyCompare "s3cret"
       (UserController.registerUser Samples.toyHash "s3cret" [Samples.ada]
          "65f1a0000000000000000002" 7 Samples.wantsAdmin).1
       9 Samples.wantsAdmin).2
  = 200.
Proof.
  refine (proj1 (register_then_login Samples.toyHash Samples.toyCompare
                   "s3cret" [Samples.ada] "65f1a0000000000000000002" 7 9
                   Samples.wantsAdmin Samples.wantsAdmin
                   "bob@example.com" "secret2" _ _ _ _ _ _));
    reflexivity.
Defined.

(** X11.  The three handlers keep the collection free of duplicates:
    if no two users share an email and no two share a phone number
    before [registerUser], [createAdmin] or [login], the same holds
    afterwards, whatever the request. *)
Theorem handlers_keep_emails_and_phones_unique
    (bcrypt_hash : string -> Z -> string)
    (bcrypt_compare : string -> string -> bool) (JWT_SECRET : string)
    (users : list UserModel.User) (oid : string) (now : Z)
    (body : UserController.Body) :
  NoDup (UserModel.email <$> users) ->
  NoDup (UserModel.phoneNumber <$> users) ->
  let unique (l : list UserModel.User) :=
    NoDup (UserModel.email <$> l) /\ NoDup (UserModel.phoneNumber <$> l) in
  unique (UserController.registerUser bcrypt_hash JWT_SECRET users oid now
            body).1
  /\ unique (UserController.createAdmin bcrypt_hash users oid now body).1
  /\ unique (UserController.login bcrypt_compare JWT_SECRET users now body).1.
Proof.
  intros He Hp unique. subst unique. cbv beta. split; [|split].
  - destruct (registerUser_store bcrypt_hash JWT_SECRET users oid now body)
      as [->|(doc & u & Hc)]; [done|].
    by apply (create_unique users oid now doc _ u).
  - destruct (createAdmin_store bcrypt_hash users oid now body)
      as [->|(doc & u & Hc)]; [done|].
    by apply (create_unique users oid now doc _ u).
  - destruct (login_store bcrypt_compare JWT_SECRET users now body)
      as [->|(id & ->)]; [done|].
    by rewrite !updateLastLogin_keeps.
Qed.

(** X11, at a test point: after Bob's registration next to Ada the
    emails are still pairwise distinct. *)
Lemma handlers_keep_emails_and_phones_unique_witness :
  NoDup
    (UserModel.email
       <$> (UserController.registerUser Samples.toyHash "s3cret" [Samples.ada]
              "65f1a0000000000000000002" 7 Samples.wantsAdmin).1).
Proof.
  refine (proj1 (proj1 (handlers_keep_emails_and_phones_unique
                          Samples.toyHash Samples.toyCompare "s3cret"
                          [Samples.ada] "65f1a0000000000000000002" 7
                          Samples.wantsAdmin _ _)));
    apply NoDup_singleton.
Defined.

(** The schema accepts the role "admin" as it accepts "user". *)
Lemma validate_admin_as_user id n e ph pw act stamp made upd :
  UserModel.validate (UserModel.mkUser id n e ph "admin" pw act stamp made upd)
  = UserModel.validate (UserModel.mkUser id n e ph "user" pw act stamp made upd).
Proof. reflexivity. Qed.

(** X12.  [createAdmin] follows [registerUser] step by step: for every
    collection and body both answer with the same status, and both
    leave the collection alone or both add one account, the same up to
    the role ("admin" against "user").  [createAdmin] never puts a
    token in its response. *)
Theorem createAdmin_mirrors_registerUser
    (bcrypt_hash : string -> Z -> string) (JWT_SECRET : string)
    (users : list UserModel.User) (oid : string) (now : Z)
    (body : UserController.Body) :
  let r := UserController.registerUser bcrypt_hash JWT_SECRET users oid now
             body in
  let a := UserController.createAdmin bcrypt_hash users oid now body in
  UserController.status a.2 = UserController.status r.2
  /\ UserController.token a.2 = None
  /\ ((r.1 = users /\ a.1 = users)
      \/ exists u,
           r.1 = users ++ [u]
           /\ UserModel.role u = "user"
           /\ a.1 = users ++ [UserModel.mkUser (UserModel._id u)
                                (UserModel.name u) (UserModel.email u)
                                (UserModel.phoneNumber u) "admin"
                                (UserModel.password u) (UserModel.isActive u)
                                (UserModel.lastLogin u) (UserModel.createdAt u)
                                (UserModel.updatedAt u)]).
Proof.
  intros r a. subst r a.
  unfold UserController.registerUser, UserController.createAdmin.
  destruct (0 <? _); [simpl; auto|].
  destruct (UserModel.findOneByEmailOrPhone _ _ _); [simpl; auto|].
  destruct (_ <? 6); [simpl; auto|].
  unfold UserModel.create. simpl. rewrite validate_admin_as_user.
  destruct (UserModel.validate _); [|simpl; auto].
  destruct (existsb _ users); [simpl; auto|].
  destruct (existsb _ users); [simpl; auto|].
  simpl. split; [done|]. split; [done|]. right. eexists.
  split; [reflexivity|]. by simpl.
Qed.

(** X13.  [login] writes nothing but the login stamp: whatever the
    request and its outcome, the collection afterwards holds the same
    accounts in the same order, each with its identifier, name, email,
    phone number, role, password hash, active flag and creation time
    unchanged. *)
Theorem login_changes_only_the_stamp
    (bcrypt_compare : string -> string -> bool) (JWT_SECRET : string)
    (users : list UserModel.User) (now : Z) (body : UserController.Body) :
  let r := UserController.login bcrypt_compare JWT_SECRET users now body in
  (λ u, (UserModel._id u, UserModel.name u, UserModel.email u,
         UserModel.phoneNumber u, UserModel.role u, UserModel.password u,
         UserModel.isActive u, UserModel.createdAt u)) <$> r.1
  = (λ u, (UserModel._id u, UserModel.name u, UserModel.email u,
           UserModel.phoneNumber u, UserModel.role u, UserModel.password u,
           UserModel.isActive u, UserModel.createdAt u)) <$> users.
Proof.
  intros r. subst r.
  destruct (login_store bcrypt_compare JWT_SECRET users now body)
    as [->|(id & ->)]; [done|].
  by apply updateLastLogin_keeps.
Qed.





(* ===================================================================== *)
(** * Further properties of the menu handlers *)
(* ===================================================================== *)

Section MenuStoreFacts.

Import MenuController.

Lemma find_none_Forall {T} (f : T -> bool) (l : list T) :
  find f l = None <-> Forall (λ x, f x = false) l.
Proof.
  induction l as [|x l IH]; simpl; [split; [constructor|done]|].
  destruct (f x) eqn:Hx.
  - split; [discriminate|]. intros H. inversion H; congruence.
  - rewrite IH. split; [by constructor|]. intros H. by inversion H.
Qed.

Lemma find_some_first {T} (f : T -> bool) (l : list T) x :
  find f l = Some x ->
  exists l1 l2, l = l1 ++ x :: l2 /\ f x = true
                /\ Forall (λ y, f y = false) l1.
Proof.
  induction l as [|y l IH]; simpl; [discriminate|].
  destruct (f y) eqn:Hy.
  - intros [= ->]. exists [], l. by repeat split.
  - intros Hf. destruct (IH Hf) as (l1 & l2 & -> & Hx & Hl1).
    exists (y :: l1), l2. repeat split; [done|]. by constructor.
Qed.

(** [findByIdAndDelete] takes out the first document with that
    identifier and nothing else. *)
Lemma findByIdAndDelete_spec menus id :
  match (MenuModel.findByIdAndDelete menus id).2 with
  | Some m =>
      exists l1 l2,
        menus = l1 ++ m :: l2
        /\ (MenuModel.findByIdAndDelete menus id).1 = l1 ++ l2
        /\ MenuModel.sameId id m = true
        /\ Forall (λ x, MenuModel.sameId id x = false) l1
  | None =>
      (MenuModel.findByIdAndDelete menus id).1 = menus
      /\ Forall (λ x, MenuModel.sameId id x = false) menus
  end.
Proof.
  induction menus as [|m menus IH]; simpl; [by split|].
  destruct (MenuModel.sameId id m) eqn:Hm; simpl.
  - exists [], menus. by repeat split.
  - destruct (MenuModel.findByIdAndDelete menus id) as [rest [found|]];
      simpl in *.
    + destruct IH as (l1 & l2 & -> & -> & Hf & Hl1).
      exists (m :: l1), l2. repeat split; [done|]. by constructor.
    + destruct IH as [-> Hall]. split; [done|]. by constructor.
Qed.

(** Replacing the first match keeps whatever the replacement keeps. *)
Lemma replaceFirst_keeps {T} (g : MenuModel.Menu -> T) id m m' menus :
  MenuModel.findById menus id = Some m ->
  g m' = g m ->
  g <$> MenuModel.replaceFirst id m' menus = g <$> menus.
Proof.
  unfold MenuModel.findById. intros Hfind Hg.
  induction menus as [|x menus IH]; [done|].
  simpl in *. destruct (MenuModel.sameId id x).
  - injection Hfind as ->. by rewrite !fmap_cons, Hg.
  - rewrite !fmap_cons. f_equal. by apply IH.
Qed.

(** The store after an update: the same, or one document replaced by
    its updated form. *)
Lemma editSingleMenuItem_store menus id now updates :
  store (editSingleMenuItem menus id now updates) = menus
  \/ exists m u,
       MenuModel.findById menus id = Some m
       /\ store (editSingleMenuItem menus id now updates)
          = MenuModel.replaceFirst id (MenuModel.applyUpdates u now m) menus.
Proof.
  unfold editSingleMenuItem.
  destruct (negb (matchesObjectId id)); [by left|].
  destruct (_ && _); [by left|].
  destruct (_ && _); [by left|].
  unfold MenuModel.findByIdAndUpdate.
  destruct (MenuModel.validateUpdates _); [|by left].
  destruct (MenuModel.findById menus id) as [m|] eqn:Hfind; [|by left].
  destruct (existsb _ menus); [by left|].
  right. simpl. eauto.
Qed.

End MenuStoreFacts.

(** X16.  Delete, then get.  In a collection whose identifiers are
    pairwise distinct, after [DELETE /:id] with a well-formed
    identifier, whether it found the document (200) or not (404), a
    [GET /:id] for the same identifier is answered 404. *)
Theorem delete_then_get_not_found
    (menus : list MenuModel.Menu) (id : string) :
  NoDup (MenuModel._id <$> menus) ->
  MenuController.matchesObjectId id = true ->
  let deleted := MenuController.deleteSingleMenuItem menus id in
  MenuController.getSingleMenuItem (MenuController.store deleted) id
  = MenuController.mkHandled (MenuController.store deleted)
      (MenuController.failure 404 "Menu item not found")
      [MenuController.FindById id].
Proof.
  intros Hnodup Hid deleted.
  assert (MenuModel.findById (MenuController.store deleted) id = None) as Hnone.
  { subst deleted. unfold MenuController.deleteSingleMenuItem.
    rewrite Hid. simpl negb. cbv iota.
    pose proof (findByIdAndDelete_spec menus id) as Hspec.
    destruct (MenuModel.findByIdAndDelete menus id) as [rest [m|]];
      simpl in *.
    - destruct Hspec as (l1 & l2 & -> & -> & Hm & Hl1).
      apply find_none_Forall. apply Forall_app. split; [done|].
      apply Forall_forall. intros x Hx.
      destruct (MenuModel.sameId id x) eqn:Hsame; [|done].
      exfalso. unfold MenuModel.sameId in *.
      apply bool_decide_eq_true in Hm, Hsame.
      rewrite fmap_app, fmap_cons in Hnodup.
      apply NoDup_app in Hnodup as (_ & _ & Hnd).
      apply NoDup_cons in Hnd as [Hnotin _].
      apply Hnotin. rewrite Hm, <- Hsame.
      by apply list_elem_of_fmap_2.
    - destruct Hspec as [-> Hall]. by apply find_none_Forall. }
  unfold MenuController.getSingleMenuItem. by rewrite Hid, Hnone.
Qed.

(** X16, at a test point: the stew is deleted, then looked up. *)
Lemma delete_then_get_not_found_witness :
  MenuController.status
    (MenuController.response
       (MenuController.getSingleMenuItem
          (MenuController.store
             (MenuController.deleteSingleMenuItem [Samples.stew]
                "65F1A00000000000000000AA"))
          "65F1A00000000000000000AA"))
  = 404.
Proof.
  rewrite (delete_then_get_not_found [Samples.stew]
             "65F1A00000000000000000AA");
    [reflexivity|apply NoDup_singleton|reflexivity].
Defined.

(** X17.  What [DELETE /:id] removes.  With a well-formed identifier
    the handler either answers 200 with a document of that identifier,
    the first one of the collection, and the collection afterwards is
    the old one without exactly that document; or it answers 404 and
    the collection is unchanged.  Either way it makes one call on the
    model. *)
Theorem delete_removes_one_document
    (menus : list MenuModel.Menu) (id : string) :
  MenuController.matchesObjectId id = true ->
  let r := MenuController.deleteSingleMenuItem menus id in
  MenuController.calls r = [MenuController.FindByIdAndDelete id]
  /\ ((exists m l1 l2,
          MenuController.status (MenuController.response r) = 200
          /\ MenuController.data (MenuController.response r) = Some m
          /\ MenuModel._id m = JS.toLowerCase id
          /\ menus = l1 ++ m :: l2
          /\ MenuController.store r = l1 ++ l2
          /\ MenuModel.findById l1 id = None)
      \/ (MenuController.status (MenuController.response r) = 404
          /\ MenuController.data (MenuController.response r) = None
          /\ MenuController.store r = menus
          /\ MenuModel.findById menus id = None)).
Proof.
  intros Hid r. subst r. unfold MenuController.deleteSingleMenuItem.
  rewrite Hid. simpl negb. cbv iota.
  pose proof (findByIdAndDelete_spec menus id) as Hspec.
  destruct (MenuModel.findByIdAndDelete menus id) as [rest [m|]]; simpl in *.
  - split; [done|]. left.
    destruct Hspec as (l1 & l2 & -> & -> & Hm & Hl1).
    exists m, l1, l2. repeat split; try done.
    + unfold MenuModel.sameId in Hm. by apply bool_decide_eq_true in Hm.
    + by apply find_none_Forall.
  - split; [done|]. right. destruct Hspec as [-> Hall].
    repeat split; try done. by apply find_none_Forall.
Qed.

(** X17, at a test point: deleting the stew by its identifier, written
    in upper case, leaves the collection empty. *)
Lemma delete_removes_one_document_witness :
  MenuController.calls
    (MenuController.deleteSingleMenuItem [Samples.stew]
       "65F1A00000000000000000AA")
  = [MenuController.FindByIdAndDelete "65F1A00000000000000000AA"].
Proof.
  refine (proj1 (delete_removes_one_document [Samples.stew]
                   "65F1A00000000000000000AA" _)).
  reflexivity.
Defined.

(** X18.  What [PUT /:id] cannot change.  Whatever the identifier, the
    body and the outcome, the collection afterwards holds as many
    documents as before, in the same order, each with its [_id] and its
    [createdAt] unchanged; and the properties [_id], [createdAt] and
    [updatedAt] of the body have no effect at all. *)
Theorem update_keeps_identity
    (menus : list MenuModel.Menu) (id : string) (now : Z)
    (name : option string) (price : option JS.value)
    (description featuredImage : option string)
    (images : option (list string)) (isAvailable : option bool)
    (ingredients category : option string) (preparationTime : option Q)
    (nutritionalInfo : option MenuModel.NutritionalInfo)
    (allergens : option (list string)) (spicyLevel : option Q)
    (body_id body_createdAt body_updatedAt : option JS.value) :
  let updates :=
    MenuController.mkBody name price description featuredImage images
      isAvailable ingredients category preparationTime nutritionalInfo
      allergens spicyLevel body_id body_createdAt body_updatedAt in
  let r := MenuController.editSingleMenuItem menus id now updates in
  (λ m, (MenuModel._id m, MenuModel.createdAt m)) <$> MenuController.store r
  = (λ m, (MenuModel._id m, MenuModel.createdAt m)) <$> menus
  /\ r = MenuController.editSingleMenuItem menus id now
           (MenuController.mkBody name price description featuredImage images
              isAvailable ingredients category preparationTime
              nutritionalInfo allergens spicyLevel None None None).
Proof.
  intros updates r. split; [|reflexivity]. subst r.
  destruct (editSingleMenuItem_store menus id now updates)
    as [->|(m & u & Hfind & ->)]; [done|].
  by apply replaceFirst_keeps with m.
Qed.



(* ===================================================================== *)
(** * Further properties of the list endpoint *)
(* ===================================================================== *)





(** X23.  The pagination block of the response, on values [parseInt]
    can read and a count of [totalCount] matching documents: the pages
    of [limit] documents cover the matches exactly ([totalPages] is the
    least such number), [hasNextPage] is true exactly when documents
    remain after the current page, and [hasPrevPage] exactly when the
    offset is positive. *)
Theorem pagination_block_is_consistent
    (params : MenuController.Query) (p l totalCount : Z) :
  MenuController.parseIntOr 1 (MenuController.page params) = JS.Num p ->
  MenuController.parseIntOr 10 (MenuController.limit params) = JS.Num l ->
  0 <= totalCount ->
  let plan := MenuController.getAllMenu params in
  let block := MenuController.pagination plan totalCount in
  let pageNum := Z.max 1 p in
  let limitNum := Z.min 50 (Z.max 1 l) in
  exists totalPages,
    MenuController.totalPages block = JS.Num totalPages
    /\ (totalPages - 1) * limitNum < totalCount <= totalPages * limitNum
    /\ (MenuController.hasNextPage block = true
        <-> pageNum * limitNum < totalCount)
    /\ (MenuController.hasPrevPage block = true
        <-> 0 < (pageNum - 1) * limitNum)
    /\ MenuController.totalItems block = totalCount.
Proof.
  intros Hp Hl Htotal plan block pageNum limitNum.
  subst block plan. unfold MenuController.pagination, MenuController.getAllMenu.
  simpl. rewrite Hp, Hl. simpl. fold pageNum limitNum.
  assert (1 <= limitNum <= 50) as Hlim by (subst limitNum; lia).
  assert (1 <= pageNum) as Hpage by (subst pageNum; lia).
  destruct (Z.eqb_spec limitNum 0) as [?|_]; [lia|].
  exists (- (- totalCount / limitNum)). simpl.
  pose proof (Z.div_mod (- totalCount) limitNum ltac:(lia)) as Hdm.
  pose proof (Z.mod_pos_bound (- totalCount) limitNum ltac:(lia)) as Hmod.
  split; [done|]. split; [nia|]. split; [|split; [|done]].
  - rewrite Z.ltb_lt. split; intros H; nia.
  - rewrite Z.ltb_lt. split; intros H; nia.
Qed.

(** X23, at a test point: 45 matches at [?page=3&limit=20] make three
    pages, and the third has no successor. *)
Lemma pagination_block_is_consistent_witness :
  MenuController.pagination (MenuController.getAllMenu Samples.pageThree) 45
  = MenuController.mkPagination (JS.Num 3) (JS.Num 3) 45 (JS.Num 20)
      false true.
Proof.
  destruct (pagination_block_is_consistent Samples.pageThree 3 20 45
              eq_refl eq_refl ltac:(lia))
    as (tp & Htp & _).
  reflexivity.
Defined.



(* ===================================================================== *)
(** * Properties of the category and price-range endpoints *)
(* ===================================================================== *)

Section CatalogFacts.

Lemma insertSorted_perm x l : JS.insertSorted x l ≡ₚ x :: l.
Proof.
  induction l as [|y l IH]; simpl; [done|].
  destruct (String.leb x y); [done|].
  rewrite IH. apply Permutation_swap.
Qed.

Lemma insertSorted_sorted x l :
  Sorted String.le l -> Sorted String.le (JS.insertSorted x l).
Proof.
  induction l as [|y l IH]; simpl; intros Hs.
  - repeat constructor.
  - destruct (String.leb x y) eqn:Hxy.
    + constructor; [done|]. constructor. unfold String.le. by rewrite Hxy.
    + apply Sorted_inv in Hs as [Hs Hhd].
      constructor; [by apply IH|].
      assert (String.le y x) as Hyx.
      { unfold String.le.
        destruct (String.leb_total x y) as [H|H]; [congruence|by rewrite H]. }
      destruct l as [|z l]; simpl.
      * by constructor.
      * destruct (String.leb x z); constructor; [done|].
        by apply HdRel_inv in Hhd.
Qed.

Lemma sort_perm l : JS.sort l ≡ₚ l.
Proof.
  induction l as [|x l IH]; simpl; [done|].
  unfold JS.sort in *. simpl. rewrite insertSorted_perm. by rewrite IH.
Qed.

Lemma sort_sorted l : Sorted String.le (JS.sort l).
Proof.
  induction l as [|x l IH]; simpl; [constructor|].
  unfold JS.sort in *. simpl. by apply insertSorted_sorted.
Qed.

Lemma orZero_eq x : (JS.orZero x == x)%Q.
Proof.
  unfold JS.orZero. destruct (Qeq_bool x 0) eqn:H; [|reflexivity].
  apply Qeq_bool_eq in H. by rewrite H.
Qed.

Lemma foldr_Qmin_le init l :
  (foldr Qmin init l <= init)%Q
  /\ Forall (λ x, (foldr Qmin init l <= x)%Q) l.
Proof.
  induction l as [|x l [IH1 IH2]]; simpl; [split; [apply Qle_refl|constructor]|].
  split.
  - eapply Qle_trans; [apply Q.le_min_r|done].
  - constructor; [apply Q.le_min_l|].
    eapply Forall_impl; [exact IH2|]. intros y Hy. simpl in Hy.
    eapply Qle_trans; [apply Q.le_min_r|done].
Qed.

Lemma foldr_Qmax_ge init l :
  (init <= foldr Qmax init l)%Q
  /\ Forall (λ x, (x <= foldr Qmax init l)%Q) l.
Proof.
  induction l as [|x l [IH1 IH2]]; simpl; [split; [apply Qle_refl|constructor]|].
  split.
  - eapply Qle_trans; [done|apply Q.le_max_r].
  - constructor; [apply Q.le_max_l|].
    eapply Forall_impl; [exact IH2|]. intros y Hy. simpl in Hy.
    eapply Qle_trans; [done|apply Q.le_max_r].
Qed.

End CatalogFacts.

(** X25.  [GET /categories] returns the categories in use: a category
    is listed exactly when some menu item has it, no category is listed
    twice, and the list is in ascending order. *)
Theorem categories_are_the_ones_in_use (menus : list MenuModel.Menu) :
  let listed := MenuController.getMenuCategories menus in
  Sorted String.le listed
  /\ NoDup listed
  /\ forall category,
       category ∈ listed
       <-> exists m, m ∈ menus /\ MenuModel.category m = category.
Proof.
  intros listed. subst listed. unfold MenuController.getMenuCategories.
  split; [apply sort_sorted|]. split.
  - rewrite sort_perm. apply NoDup_remove_dups.
  - intros category. rewrite sort_perm.
    unfold MenuController.distinctCategories.
    rewrite elem_of_remove_dups, list_elem_of_fmap.
    split; intros (m & H1 & H2); exists m; by split.
Qed.

(** X26.  [GET /price-range] brackets the catalog: the reported
    [minPrice] is a whole number not above any price, the reported
    [maxPrice] a whole number not below any price, each less than 1
    away from the cheapest and the dearest item; for an empty catalog
    both are 0. *)
Theorem price_range_brackets_the_catalog (menus : list MenuModel.Menu) :
  let range := MenuController.getPriceRange menus in
  Forall (λ m,
            (inject_Z (MenuController.minPrice_floor range)
             <= MenuModel.price m)%Q
            /\ (MenuModel.price m
                <= inject_Z (MenuController.maxPrice_ceil range))%Q) menus
  /\ MenuController.minPrice_floor range <= MenuController.maxPrice_ceil range
  /\ (menus = [] ->
      MenuController.minPrice_floor range = 0
      /\ MenuController.maxPrice_ceil range = 0)
  /\ (menus <> [] ->
      exists cheapest dearest,
        cheapest ∈ menus /\ dearest ∈ menus
        /\ (MenuModel.price cheapest
            < inject_Z (MenuController.minPrice_floor range + 1))%Q
        /\ (inject_Z (MenuController.maxPrice_ceil range - 1)
            < MenuModel.price dearest)%Q).
Proof.
  intros range. subst range. unfold MenuController.getPriceRange.
  destruct menus as [|m rest]; simpl.
  - split; [constructor|]. split; [done|]. split; [done|]. by intros [].
  - set (lo := foldr Qmin (MenuModel.price m) (MenuModel.price <$> rest)).
    set (hi := foldr Qmax (MenuModel.price m) (MenuModel.price <$> rest)).
    destruct (foldr_Qmin_le (MenuModel.price m) (MenuModel.price <$> rest))
      as [Hlo0 Hlo]. fold lo in Hlo0, Hlo.
    destruct (foldr_Qmax_ge (MenuModel.price m) (MenuModel.price <$> rest))
      as [Hhi0 Hhi]. fold hi in Hhi0, Hhi.
    assert (inject_Z (Qfloor (JS.orZero lo)) <= lo)%Q as Hfl.
    { rewrite (Qfloor_comp _ _ (orZero_eq lo)). apply Qfloor_le. }
    assert (hi <= inject_Z (Qceiling (JS.orZero hi)))%Q as Hce.
    { rewrite (Qceiling_comp _ _ (orZero_eq hi)). apply Qle_ceiling. }
    assert (lo < inject_Z (Qfloor (JS.orZero lo) + 1))%Q as Hfl1.
    { rewrite (Qfloor_comp _ _ (orZero_eq lo)). apply Qlt_floor. }
    assert (inject_Z (Qceiling (JS.orZero hi) - 1) < hi)%Q as Hce1.
    { rewrite (Qceiling_comp _ _ (orZero_eq hi)). apply Qceiling_lt. }
    split; [|split; [|split]].
    + constructor.
      * split; [by eapply Qle_trans|by eapply Qle_trans].
      * rewrite Forall_forall in Hlo, Hhi.
        apply Forall_forall. intros x Hx.
        apply (list_elem_of_fmap_2 MenuModel.price) in Hx.
        specialize (Hlo _ Hx). specialize (Hhi _ Hx). simpl in Hlo, Hhi.
        split; [by eapply Qle_trans|by eapply Qle_trans].
    + assert (inject_Z (Qfloor (JS.orZero lo))
              <= inject_Z (Qceiling (JS.orZero hi)))%Q as Hle.
      { eapply Qle_trans; [exact Hfl|].
        eapply Qle_trans; [exact Hlo0|].
        eapply Qle_trans; [exact Hhi0|exact Hce]. }
      by rewrite <- Zle_Qle in Hle.
    + discriminate.
    + intros _.
      assert (exists c, c ∈ m :: rest /\ (MenuModel.price c == lo)%Q)
        as (c & Hc & Hclo).
      { subst lo. clear. induction rest as [|x rest (c & Hc & Heq)]; simpl.
        - exists m. split; [by left|reflexivity].
        - destruct (Q.min_spec (MenuModel.price x)
                      (foldr Qmin (MenuModel.price m)
                         (MenuModel.price <$> rest))) as [[_ Hm]|[_ Hm]].
          + exists x. split; [right; by left|]. by rewrite Hm.
          + exists c. split.
            * apply elem_of_cons in Hc as [->|Hc]; [by left|].
              right. by right.
            * by rewrite Hm. }
      assert (exists d, d ∈ m :: rest /\ (MenuModel.price d == hi)%Q)
        as (d & Hd & Hdhi).
      { subst hi. clear. induction rest as [|x rest (d & Hd & Heq)]; simpl.
        - exists m. split; [by left|reflexivity].
        - destruct (Q.max_spec (MenuModel.price x)
                      (foldr Qmax (MenuModel.price m)
                         (MenuModel.price <$> rest))) as [[_ Hm]|[_ Hm]].
          + exists d. split.
            * apply elem_of_cons in Hd as [->|Hd]; [by left|].
              right. by right.
            * by rewrite Hm.
          + exists x. split; [right; by left|]. by rewrite Hm. }
      exists c, d. split; [done|]. split; [done|].
      split; [by rewrite Hclo|by rewrite Hdhi].
Qed.

(** X26, at a test point: a catalog with the stew alone, at 1800. *)
Lemma price_range_brackets_the_catalog_witness :
  MenuController.minPrice_floor (MenuController.getPriceRange []) = 0
  /\ exists cheapest,
       cheapest ∈ [Samples.stew]
       /\ (MenuModel.price cheapest
           < inject_Z (MenuController.minPrice_floor
                         (MenuController.getPriceRange [Samples.stew]) + 1))%Q.
Proof.
  split.
  - refine (proj1 (proj1 (proj2 (proj2 (price_range_brackets_the_catalog [])))
                     eq_refl)).
  - destruct (proj2 (proj2 (proj2 (price_range_brackets_the_catalog
                                     [Samples.stew]))) ltac:(discriminate))
      as (cheapest & _ & Hin & _ & Hlt & _).
    by exists cheapest.
Defined.

(* ===================================================================== *)
(** * Registration against the admin guard *)
(* ===================================================================== *)

(** Every token [registerUser] issues carries the role "user". *)
Lemma registerUser_token_role
    (bcrypt_hash : string -> Z -> string) (JWT_SECRET : string)
    (users : list UserModel.User) (oid : string) (now : Z)
    (body : UserController.Body) (issued : UserController.Token) :
  UserController.token
    (UserController.registerUser bcrypt_hash JWT_SECRET users oid now body).2
  = Some issued ->
  UserController.token_role issued = "user".
Proof.
  unfold UserController.registerUser.
  destruct (0 <? _); [discriminate|].
  destruct (UserModel.findOneByEmailOrPhone _ _ _); [discriminate|].
  destruct (_ <? 6); [discriminate|].
  destruct (UserModel.create _ _ _ _) as [err|[users' u]] eqn:Hcreate;
    [discriminate|].
  apply create_stores in Hcreate as [_ Hrole]. simpl in Hrole.
  simpl. intros [= <-]. by simpl.
Qed.

(** X27.  A registered user cannot write to the menu.  When the token
    of a request verifies to claims whose role is the one of a token
    issued by [registerUser], the routes [POST /], [PUT /:id] and
    [DELETE /:id] answer 403 "Access denied. Insufficient permissions.":
    the handlers do not run and the collection is unchanged. *)
Theorem registered_user_cannot_write_menu
    (bcrypt_hash : string -> Z -> string) (JWT_SECRET : string)
    (users : list UserModel.User) (oid : string) (now : Z)
    (body : UserController.Body) (issued : UserController.Token)
    (jwt_verify : string -> string -> Auth.Verified)
    (secret authHeader : option string) (claims : Auth.Claims)
    (menus : list MenuModel.Menu) (id oid' : string) (now' : Z)
    (item : MenuController.Body) :
  UserController.token
    (UserController.registerUser bcrypt_hash JWT_SECRET users oid now body).2
  = Some issued ->
  Auth.authMiddleware jwt_verify secret authHeader = inr claims ->
  Auth.role claims = UserController.token_role issued ->
  let denied :=
    MenuController.mkHandled menus
      (MenuController.failure 403 "Access denied. Insufficient permissions.")
      [] in
  MenuRoute.post jwt_verify secret authHeader menus oid' now' item = denied
  /\ MenuRoute.putById jwt_verify secret authHeader menus id now' item = denied
  /\ MenuRoute.deleteById jwt_verify secret authHeader menus id = denied.
Proof.
  intros Hissued Hauth Hrole denied.
  apply registerUser_token_role in Hissued. rewrite Hissued in Hrole.
  unfold MenuRoute.post, MenuRoute.putById, MenuRoute.deleteById,
    MenuRoute.adminOnly.
  rewrite Hauth. unfold Auth.authorize. rewrite Hrole. done.
Qed.

(** X27, at a test point: Bob registers and tries to create the
    scenario's menu item with his token. *)
Lemma registered_user_cannot_write_menu_witness :
  MenuRoute.post Samples.toyVerify (Some "s3cret") (Some "Bearer bob.token")
    [] "65f1a00000000000000000ab" 9 Samples.jollof
  = MenuController.mkHandled []
      (MenuController.failure 403 "Access denied. Insufficient permissions.")
      [].
Proof.
  refine (proj1 (registered_user_cannot_write_menu Samples.toyHash "s3cret"
                   [Samples.ada] "65f1a0000000000000000002" 7
                   Samples.wantsAdmin
                   (UserController.mkToken "65f1a0000000000000000002"
                      "bob@example.com" "user" "s3cret" "7d")
                   Samples.toyVerify (Some "s3cret") (Some "Bearer bob.token")
                   (Auth.mkClaims "65f1a0000000000000000002"
                      "bob@example.com" "user")
                   [] "65f1a00000000000000000aa" "65f1a00000000000000000ab" 9
                   Samples.jollof _ _ _));
    reflexivity.
Defined.

(* ===================================================================== *)
(** * What the user schema lets in *)
(* ===================================================================== *)

Section SchemaFacts.

Import JS.






End SchemaFacts.


(* ===================================================================== *)
(** * The create and read handlers on every input *)
(* ===================================================================== *)


(** X30.  [GET /:id] with a well-formed identifier answers 200 with the
    first document whose [_id] is that identifier, compared without
    regard to the case of the hexadecimal digits, or 404 when the
    collection has none; it makes one call on the model and never
    changes the collection. *)
Theorem get_by_id_finds_the_document
    (menus : list MenuModel.Menu) (id : string) :
  MenuController.matchesObjectId id = true ->
  let r := MenuController.getSingleMenuItem menus id in
  MenuController.store r = menus
  /\ MenuController.calls r = [MenuController.FindById id]
  /\ ((exists m l1 l2,
          MenuController.status (MenuController.response r) = 200
          /\ MenuController.data (MenuController.response r) = Some m
          /\ MenuModel._id m = JS.toLowerCase id
          /\ menus = l1 ++ m :: l2
          /\ Forall (λ x, MenuModel._id x <> JS.toLowerCase id) l1)
      \/ (MenuController.status (MenuController.response r) = 404
          /\ MenuController.data (MenuController.response r) = None
          /\ Forall (λ x, MenuModel._id x <> JS.toLowerCase id) menus)).
Proof.
  intros Hid r. subst r. unfold MenuController.getSingleMenuItem.
  rewrite Hid. simpl negb. cbv iota.
  assert (forall l, Forall (λ x, MenuModel.sameId id x = false) l ->
                    Forall (λ x, MenuModel._id x <> JS.toLowerCase id) l)
    as Hne.
  { intros l Hl. eapply Forall_impl; [exact Hl|].
    intros x Hx. simpl in Hx. unfold MenuModel.sameId in Hx.
    by apply bool_decide_eq_false in Hx. }
  destruct (MenuModel.findById menus id) as [m|] eqn:Hfind; simpl.
  - split; [done|]. split; [done|]. left.
    apply find_some_first in Hfind as (l1 & l2 & -> & Hm & Hl1).
    exists m, l1, l2. repeat split; try done.
    + unfold MenuModel.sameId in Hm. by apply bool_decide_eq_true in Hm.
    + by apply Hne.
  - split; [done|]. split; [done|]. right.
    repeat split. apply Hne. by apply find_none_Forall.
Qed.

(** X30, at a test point: the stew is found under its identifier
    written in upper case. *)
Lemma get_by_id_finds_the_document_witness :
  MenuController.calls
    (MenuController.getSingleMenuItem [Samples.stew]
       "65F1A00000000000000000AA")
  = [MenuController.FindById "65F1A00000000000000000AA"].
Proof.
  refine (proj1 (proj2 (get_by_id_finds_the_document [Samples.stew]
                          "65F1A00000000000000000AA" _))).
  reflexivity.
Defined.
